(** * FileOrganiser: the category schema, its reconciliation with the
    built-in default, the resolvers and the batch passes.

    Two programs are embedded:
    - [src/file_organizer.py] (class [FileOrganizer], the extension variant),
      in [Module Ext];
    - [src/file_organiser_documents.py] (classes [MappingManager],
      [FileMover], [FolderOrganizer], the keyword variant), in [Module Kw].

    Python values are modelled as they are used: JSON documents as a tree,
    a [dict] as an association list in insertion order, the dict objects
    that the program shares between [default_categories] and [categories]
    as locations of a heap, exceptions as a result type, and the
    filesystem, the console and the persisted schema file as components of
    an explicit state threaded by a small state-and-exception monad. *)

From Stdlib Require Import ZArith String Ascii List Bool.
From stdpp Require Import base option list gmap strings.

Local Open Scope string_scope.
Local Open Scope list_scope.

(** ** Python strings and [os.path] (POSIX flavour)

    A [string] stands for a Python [str] of ASCII characters: [lower]
    and [strip] below agree with [str.lower()] and [str.strip()] on such
    text. A letter or a white space character outside ASCII is left as it
    is, which Python would lower-case or strip. *)

Module PyStr.

(** [str.lower()], on the ASCII letters. *)
Definition lower_ascii (c : ascii) : ascii :=
  let n := nat_of_ascii c in
  if (65 <=? n)%nat && (n <=? 90)%nat then ascii_of_nat (n + 32) else c.

Fixpoint lower (s : string) : string :=
  match s with
  | EmptyString => EmptyString
  | String c r => String (lower_ascii c) (lower r)
  end.

Fixpoint startswith (p s : string) : bool :=
  match p, s with
  | EmptyString, _ => true
  | String a p', String b s' => if Ascii.eqb a b then startswith p' s' else false
  | String _ _, EmptyString => false
  end.

(** [needle in hay] for two [str]: the substring test. *)
Fixpoint contains (needle hay : string) : bool :=
  startswith needle hay ||
  match hay with
  | EmptyString => false
  | String _ r => contains needle r
  end.

(** The one-character strings of a [str], as iteration yields them. *)
Fixpoint chars (s : string) : list string :=
  match s with
  | EmptyString => []
  | String c r => String c EmptyString :: chars r
  end.

Definition is_sep (c : ascii) : bool := Ascii.eqb c "/"%char.
Definition is_dot (c : ascii) : bool := Ascii.eqb c "."%char.

Fixpoint has_sep (p : string) : bool :=
  match p with
  | EmptyString => false
  | String c r => is_sep c || has_sep r
  end.

Fixpoint endswith_sep (p : string) : bool :=
  match p with
  | EmptyString => false
  | String c EmptyString => is_sep c
  | String _ r => endswith_sep r
  end.

Definition startswith_sep (p : string) : bool :=
  match p with
  | String c _ => is_sep c
  | EmptyString => false
  end.

(** [posixpath.basename]: what follows the last separator. *)
Fixpoint basename (p : string) : string :=
  match p with
  | EmptyString => EmptyString
  | String c r => if is_sep c || has_sep r then basename r else p
  end.

(** One step of [posixpath.join]. *)
Definition join2 (a b : string) : string :=
  if startswith_sep b then b
  else if String.eqb a "" || endswith_sep a then a ++ b
  else a ++ "/" ++ b.

(** [posixpath.join(a, *p)]. *)
Definition join (a : string) (p : list string) : string := fold_left join2 p a.

(** Split at the last dot: the text before it, and the text from it on. *)
Fixpoint split_last_dot (s : string) : option (string * string) :=
  match s with
  | EmptyString => None
  | String c r =>
      match split_last_dot r with
      | Some (lead, e) => Some (String c lead, e)
      | None => if is_dot c then Some (EmptyString, String c r) else None
      end
  end.

Fixpoint all_dots (s : string) : bool :=
  match s with
  | EmptyString => true
  | String c r => is_dot c && all_dots r
  end.

(** The second component of [posixpath.splitext]: the text from the last
    dot of the last path component, unless only dots precede it there. *)
Definition splitext_ext (p : string) : string :=
  match split_last_dot (basename p) with
  | Some (lead, e) => if all_dots lead then "" else e
  | None => ""
  end.

(** [str.split("/")]. *)
Fixpoint split_sep (s : string) : list string :=
  match s with
  | EmptyString => [EmptyString]
  | String c r =>
      if is_sep c then EmptyString :: split_sep r
      else
        match split_sep r with
        | x :: t => String c x :: t
        | [] => [String c EmptyString]
        end
  end.

(** ["/".join(comps)]. *)
Fixpoint join_sep (comps : list string) : string :=
  match comps with
  | [] => ""
  | [c] => c
  | c :: r => c ++ "/" ++ join_sep r
  end.

Definition initial_slashes (p : string) : nat :=
  if startswith "//" p && negb (startswith "///" p) then 2
  else if startswith "/" p then 1
  else 0.

(** The loop body of [posixpath.normpath]. *)
Definition norm_step (init : nat) (new_comps : list string) (comp : string) : list string :=
  if String.eqb comp "" || String.eqb comp "." then new_comps
  else if negb (String.eqb comp "..")
          || (Nat.eqb init 0 && Nat.eqb (List.length new_comps) 0)
          || match last new_comps with
             | Some c => String.eqb c ".."
             | None => false
             end
       then new_comps ++ [comp]
       else removelast new_comps.

Definition slashes (n : nat) : string :=
  match n with 0 => "" | 1 => "/" | _ => "//" end.

(** [posixpath.normpath]. *)
Definition normpath (p : string) : string :=
  if String.eqb p "" then "."
  else
    let init := initial_slashes p in
    let comps := fold_left (norm_step init) (split_sep p) [] in
    let q := (slashes init ++ join_sep comps)%string in
    if String.eqb q "" then "." else q.

(** [posixpath.abspath], in the working directory [cwd]. *)
Definition abspath (cwd p : string) : string :=
  normpath (if startswith_sep p then p else join2 cwd p).

Fixpoint common_prefix (a b : list string) : list string :=
  match a, b with
  | x :: a', y :: b' => if String.eqb x y then x :: common_prefix a' b' else []
  | _, _ => []
  end.

Definition path_comps (p : string) : list string :=
  List.filter (fun c => negb (String.eqb c "" || String.eqb c ".")) (split_sep p).

(** [posixpath.commonpath([a, b])]: [None] stands for its [ValueError]
    on an absolute and a relative path. *)
Definition commonpath (a b : string) : option string :=
  if Bool.eqb (startswith_sep a) (startswith_sep b) then
    Some ((if startswith_sep a then "/" else "")
          ++ join_sep (common_prefix (path_comps a) (path_comps b)))%string
  else None.

(** [str.strip()], on the ASCII white space. *)
Definition is_space (c : ascii) : bool :=
  let n := nat_of_ascii c in
  Nat.eqb n 32 || ((9 <=? n)%nat && (n <=? 13)%nat) || ((28 <=? n)%nat && (n <=? 31)%nat).

Fixpoint lstrip (s : string) : string :=
  match s with
  | EmptyString => EmptyString
  | String c r => if is_space c then lstrip r else s
  end.

Fixpoint rstrip (s : string) : string :=
  match s with
  | EmptyString => EmptyString
  | String c r =>
      match rstrip r with
      | EmptyString => if is_space c then EmptyString else String c EmptyString
      | r' => String c r'
      end
  end.

Definition strip (s : string) : string := rstrip (lstrip s).

End PyStr.

(** ** JSON documents and Python dicts *)

(** A parsed JSON document. The program never looks at the value of a
    number. An object keeps its pairs in document order. *)
#[warnings="-register-all"]
Inductive json : Type :=
  | JNull
  | JBool (b : bool)
  | JNum (n : Z)
  | JStr (s : string)
  | JArr (xs : list json)
  | JObj (kvs : list (string * json)).

(** [isinstance(v, list)]. *)
Definition is_list (v : json) : bool :=
  match v with JArr _ => true | _ => false end.

Module Dict.
Section Dict.
Context {V : Type}.

(** [d.get(k)]: [None] when the key is absent. *)
Fixpoint get (k : string) (d : list (string * V)) : option V :=
  match d with
  | [] => None
  | (k', v) :: r => if String.eqb k k' then Some v else get k r
  end.

(** [k in d]. *)
Definition mem (k : string) (d : list (string * V)) : bool :=
  match get k d with Some _ => true | None => false end.

(** [d[k] = v]: an existing key keeps its place, a new key goes last. *)
Fixpoint set (k : string) (v : V) (d : list (string * V)) : list (string * V) :=
  match d with
  | [] => [(k, v)]
  | (k', v') :: r =>
      if String.eqb k k' then (k', v) :: r else (k', v') :: set k v r
  end.

(** The dict built from a sequence of pairs, a later pair overriding an
    earlier one with the same key. *)
Definition of_pairs (kvs : list (string * V)) : list (string * V) :=
  fold_left (fun d kv => set (fst kv) (snd kv) d) kvs [].

Definition keys (d : list (string * V)) : list string := map fst d.
End Dict.
End Dict.


(** [v == x] for a [str] [x]. *)
Definition is_str (x : string) (v : json) : bool :=
  match v with JStr s => String.eqb x s | _ => false end.

(** ** Exceptions, and the state-and-exception monad *)

Inductive exn : Type := Exn (kind : string) (msg : string).

Definition str_exn (e : exn) : string := match e with Exn _ m => m end.

Definition TypeError : exn := Exn "TypeError" "".
Definition AttributeError : exn := Exn "AttributeError" "".
Definition UnboundLocalError : exn := Exn "UnboundLocalError" "".
Definition ValueError : exn := Exn "ValueError" "".

Inductive result (A : Type) : Type :=
  | Ok (a : A)
  | Raise (e : exn).
Arguments Ok {A} a.
Arguments Raise {A} e.

(** [x in v] for a [str] [x] and a JSON value [v]: membership in a list,
    the substring test on a [str], key membership in a dict; any other
    value is not iterable. *)
Definition py_in (x : string) (v : json) : result bool :=
  match v with
  | JArr xs => Ok (existsb (is_str x) xs)
  | JStr s => Ok (PyStr.contains x s)
  | JObj kvs => Ok (Dict.mem x kvs)
  | _ => Raise TypeError
  end.

(** A computation over a state [S]: it returns or raises, and leaves a
    state behind either way. *)
Definition M (S A : Type) : Type := S -> result A * S.

Definition ret {S A} (a : A) : M S A := fun s => (Ok a, s).
Definition raise {S A} (e : exn) : M S A := fun s => (Raise e, s).
Definition bind {S A B} (c : M S A) (k : A -> M S B) : M S B :=
  fun s =>
    match c s with
    | (Ok a, s') => k a s'
    | (Raise e, s') => (Raise e, s')
    end.
Definition gets {S A} (f : S -> A) : M S A := fun s => (Ok (f s), s).
Definition modify {S} (f : S -> S) : M S unit := fun s => (Ok tt, f s).
Definition lift {S A} (r : result A) : M S A := fun s => (r, s).

(** [try: c except Exception as e: h e]. *)
Definition try_except {S A} (c : M S A) (h : exn -> M S A) : M S A :=
  fun s =>
    match c s with
    | (Ok a, s') => (Ok a, s')
    | (Raise e, s') => h e s'
    end.

Notation "'let*' x ':=' c 'in' k" := (bind c (fun x => k))
  (at level 10, x pattern, c at level 100, k at level 200).
Notation "c ';;' k" := (bind c (fun _ => k))
  (at level 100, k at level 200, right associativity).

(** [for x in xs: acc = body(acc, x)]. *)
Fixpoint for_fold {S A B} (body : B -> A -> M S B) (acc : B) (xs : list A) : M S B :=
  match xs with
  | [] => ret acc
  | x :: r => let* acc' := body acc x in for_fold body acc' r
  end.

(** [for x in xs: body(x)]. *)
Definition for_each {S A} (body : A -> M S unit) (xs : list A) : M S unit :=
  for_fold (fun _ x => body x) tt xs.

(** ** The filesystem collaborator *)

(** [os.path.exists], [isdir], [isfile], [os.listdir], [os.makedirs]
    (its first argument is [exist_ok]) and [shutil.move] over a filesystem
    state [fs]. A primitive that changes the filesystem leaves a state
    behind and may raise. *)
Class Filesystem (fs : Type) : Type := {
  fs_exists : string -> fs -> bool;
  fs_isdir : string -> fs -> bool;
  fs_isfile : string -> fs -> bool;
  fs_listdir : string -> fs -> result (list string);
  fs_makedirs : bool -> string -> fs -> fs * option exn;
  fs_move : string -> string -> fs -> fs * option exn;
}.

(** ** The extension variant: [src/file_organizer.py] *)

Module Ext.

Definition loc : Type := nat.

(** A value that is not a dict. *)
Inductive nondict : Type :=
  | NNull
  | NBool (b : bool)
  | NNum (n : Z)
  | NStr (s : string)
  | NArr (xs : list json).

Definition json_of_nondict (n : nondict) : json :=
  match n with
  | NNull => JNull
  | NBool b => JBool b
  | NNum z => JNum z
  | NStr s => JStr s
  | NArr xs => JArr xs
  end.

(** What a category name is bound to: a dict object, by reference (the
    program binds one dict under [default_categories] and [categories]
    at once), or any other value. The values inside such a dict are never
    shared and mutated, and are kept by value. *)
Inductive pyval : Type :=
  | VDict (l : loc)
  | VOther (n : nondict).

(** The fields of a [FileOrganizer] that are set once. *)
Record FileOrganizer : Type := {
  folder_to_watch : string;
  default_categories : list (string * loc);
}.

Section Engine.
Context {fs : Type} `{Filesystem fs}.

(** The mutable state: the dict objects, [self.categories], the document
    in the schema file at [self.json_file] ([None]: the file is absent),
    the filesystem and the console. The schema file is kept apart from
    the filesystem [disk]: it is taken to lie outside the watched folder
    (as [main] has it: [~/categories.json] beside [~/Downloads]), so that
    no primitive of a pass reaches it; [store] changes only where the
    program writes the file. The calls of [logging] repeat the printed
    lines in a log file and are left out, except where evaluating their
    argument raises. *)
Record state : Type := State {
  heap : gmap loc (list (string * json));
  categories : list (string * pyval);
  store : option json;
  disk : fs;
  console : list string;
}.

Definition set_heap (f : gmap loc (list (string * json)) -> gmap loc (list (string * json)))
    (s : state) : state :=
  State (f (heap s)) (categories s) (store s) (disk s) (console s).
Definition set_categories (c : list (string * pyval)) (s : state) : state :=
  State (heap s) c (store s) (disk s) (console s).
Definition set_store (d : option json) (s : state) : state :=
  State (heap s) (categories s) d (disk s) (console s).
Definition set_disk (d : fs) (s : state) : state :=
  State (heap s) (categories s) (store s) d (console s).
Definition set_console (c : list string) (s : state) : state :=
  State (heap s) (categories s) (store s) (disk s) c.

Definition print (line : string) : M state unit :=
  modify (fun s => set_console (console s ++ [line]) s).

(** The dict at a location. *)
Definition deref (l : loc) (h : gmap loc (list (string * json))) : list (string * json) :=
  default [] (h !! l).

Definition read (l : loc) : M state (list (string * json)) :=
  gets (fun s => deref l (heap s)).
Definition write (l : loc) (d : list (string * json)) : M state unit :=
  modify (set_heap (insert l d)).
(** A new dict object. *)
Definition alloc (d : list (string * json)) : M state loc :=
  fun s => let l := fresh (dom (heap s)) in (Ok l, set_heap (insert l d) s).

(** Run a filesystem primitive. *)
Definition fs_call (op : fs -> fs * option exn) : M state unit :=
  fun s =>
    let '(d, r) := op (disk s) in
    (match r with None => Ok tt | Some e => Raise e end, set_disk d s).

(** *** [__init__]: the default schema literal *)

Definition exts (l : list string) : json := JArr (map JStr l).

Definition default_literal : list (string * list (string * json)) :=
  [ ("Documents & Data",
      [ ("Documents", exts [".pdf"; ".docx"; ".txt"; ".odt"; ".rtf"; ".html";
                            ".epub"; ".md"; ".tex"; ".bib"]);
        ("Data (CSV, XML, JSON, etc.)", exts [".csv"; ".xml"; ".json"; ".yaml"]) ]);
    ("Development",
      [ ("Project", exts [".py"; ".cpp"; ".java"; ".js"; ".html"; ".css"; ".rb";
                          ".go"; ".php"]) ]);
    ("Executables",
      [ ("Installers", exts [".exe"; ".msi"]);
        ("Scripts", exts [".bat"; ".sh"]) ]);
    ("Archives",
      [ ("Compressed Files", exts [".zip"; ".rar"; ".tar"; ".tar.gz"; ".7z"; ".gz"]);
        ("Backups", exts [".bak"; ".backup"]) ]);
    ("Disk Image", [ ("ISO & Disk Images", exts [".iso"; ".img"]) ]);
    ("Presentations", [ ("PowerPoint Files", exts [".pptx"; ".key"; ".ppt"]) ]);
    ("Spreadsheets", [ ("Excel and CSV Files", exts [".xls"; ".xlsx"; ".csv"]) ]);
    ("Other", []) ].

(** Evaluating the literal allocates one dict per category. *)
Fixpoint alloc_literal (lit : list (string * list (string * json)))
    : M state (list (string * loc)) :=
  match lit with
  | [] => ret []
  | (c, d) :: r =>
      let* l := alloc d in
      let* r' := alloc_literal r in
      ret ((c, l) :: r')
  end.

(** *** [save_categories] *)

(** What [json.dump] writes for a value: it follows the references. *)
Definition dump_value (h : gmap loc (list (string * json))) (v : pyval) : json :=
  match v with
  | VDict l => JObj (deref l h)
  | VOther n => json_of_nondict n
  end.

Definition dump (h : gmap loc (list (string * json))) (cats : list (string * pyval)) : json :=
  JObj (map (fun kv => (fst kv, dump_value h (snd kv))) cats).

Definition save_categories (cats : list (string * pyval)) : M state unit :=
  modify (fun s => set_store (Some (dump (heap s) cats)) s);;
  print "Categories saved to JSON.".

(** *** [sync_categories] *)

(** The body of the inner loop (lines 148-159), for the dict [l] that
    [categories[category]] is bound to. *)
Definition sync_subcategory (category : string) (l : loc) (updated : bool)
    (item : string * json) : M state bool :=
  let '(subcategory, extensions) := item in
  let* d := read l in
  let* updated :=
    if Dict.mem subcategory d then ret updated
    else
      write l (Dict.set subcategory extensions d);;
      print ("Added missing subcategory: " ++ subcategory ++ " to " ++ category);;
      ret true in
  let* d := read l in
  match Dict.get subcategory d with
  | Some v =>
      if is_list v then ret updated
      else
        print ("Warning: " ++ subcategory ++ " under " ++ category
               ++ " is not a list, resetting to default.");;
        write l (Dict.set subcategory extensions d);;
        ret updated
  | None => raise (Exn "KeyError" subcategory)
  end.

(** The body of the outer loop (lines 133-159). *)
Definition sync_category (acc : list (string * pyval) * bool)
    (item : string * loc) : M state (list (string * pyval) * bool) :=
  let '(cats, updated) := acc in
  let '(category, dl) := item in
  match Dict.get category cats with
  | None =>
      print ("Added missing category: " ++ category);;
      ret (Dict.set category (VDict dl) cats, true)
  | Some v =>
      let* (cats, l, updated) :=
        match v with
        | VDict l => ret (cats, l, updated)
        | VOther _ =>
            print ("Warning: " ++ category ++ " is not a dictionary, resetting to default.");;
            ret (Dict.set category (VDict dl) cats, dl, true)
        end in
      let* subcategories := read dl in
      let* updated := for_fold (sync_subcategory category l) updated subcategories in
      ret (cats, updated)
  end.

(** Lines 131-159: the reconciled dict and the [updated] flag. *)
Definition sync_loop (self : FileOrganizer) (cats : list (string * pyval))
    : M state (list (string * pyval) * bool) :=
  for_fold sync_category (cats, false) (default_categories self).

Definition sync_categories (self : FileOrganizer) (cats : list (string * pyval))
    : M state (list (string * pyval)) :=
  let* (cats, updated) := sync_loop self cats in
  (if updated : bool then save_categories cats else ret tt);;
  ret cats.

(** *** [load_categories] *)

(** What [json.load] builds for the value of a category: an object becomes
    a new dict. *)
Definition load_value (v : json) : M state pyval :=
  match v with
  | JObj sub => let* l := alloc (Dict.of_pairs sub) in ret (VDict l)
  | JNull => ret (VOther NNull)
  | JBool b => ret (VOther (NBool b))
  | JNum n => ret (VOther (NNum n))
  | JStr s => ret (VOther (NStr s))
  | JArr xs => ret (VOther (NArr xs))
  end.

Fixpoint load_entries (kvs : list (string * json)) : M state (list (string * pyval)) :=
  match kvs with
  | [] => ret []
  | (k, v) :: r =>
      let* v' := load_value v in
      let* r' := load_entries r in
      ret ((k, v') :: r')
  end.

(** [json.load] of a document whose top level is an object. *)
Definition json_load (kvs : list (string * json)) : M state (list (string * pyval)) :=
  load_entries (Dict.of_pairs kvs).

(** [dict.copy()] of [default_categories]: a new top-level dict bound to
    the same category dicts. *)
Definition copy_default (self : FileOrganizer) : list (string * pyval) :=
  map (fun kv => (fst kv, VDict (snd kv))) (default_categories self).

(** A document that is not an object makes the first iteration of
    [sync_categories] raise [TypeError] (the default literal is not
    empty). *)
Definition load_categories (self : FileOrganizer) : M state (list (string * pyval)) :=
  let* st := gets store in
  match st with
  | Some (JObj kvs) =>
      let* cats := json_load kvs in
      print "Categories loaded from JSON.";;
      sync_categories self cats
  | Some _ =>
      print "Categories loaded from JSON.";;
      raise TypeError
  | None =>
      let cats := copy_default self in
      save_categories cats;;
      print "No JSON file found, using default categories.";;
      ret cats
  end.

(** [FileOrganizer(folder_to_watch, json_file)]. *)
Definition init (folder : string) : M state FileOrganizer :=
  let* dc := alloc_literal default_literal in
  let self := {| folder_to_watch := folder; default_categories := dc |} in
  let* cats := load_categories self in
  modify (set_categories cats);;
  print ("Organizing folder: " ++ folder);;
  ret self.

(** *** [organise_downloads] *)

(** The inner loop of lines 222-237 up to its first hit. *)
Fixpoint find_subcategory (ext : string) (items : list (string * json))
    : result (option string) :=
  match items with
  | [] => Ok None
  | (subcategory, extensions) :: r =>
      match py_in ext extensions with
      | Raise e => Raise e
      | Ok true => Ok (Some subcategory)
      | Ok false => find_subcategory ext r
      end
  end.

(** The loops of lines 221-239 up to their first hit: the category and
    subcategory the file goes to. A category bound to something that is
    not a dict has no [items()]. *)
Fixpoint find_match (h : gmap loc (list (string * json))) (ext : string)
    (cats : list (string * pyval)) : result (option (string * string)) :=
  match cats with
  | [] => Ok None
  | (category, VOther _) :: _ => Raise AttributeError
  | (category, VDict l) :: r =>
      match find_subcategory ext (deref l h) with
      | Raise e => Raise e
      | Ok (Some subcategory) => Ok (Some (category, subcategory))
      | Ok None => find_match h ext r
      end
  end.

(** The lines that [organise_downloads] prints. *)
Definition msg_processing (file_path ext : string) : string :=
  "Processing file: " ++ file_path ++ " with extension " ++ ext.
Definition msg_moved (src dst : string) : string := "Moved " ++ src ++ " to " ++ dst.
Definition msg_error (e : exn) : string := "Error moving file: " ++ str_exn e.
Definition msg_new_type (ext : string) : string := "New file type detected: " ++ ext.

(** [try: move(src, dst); print(...) except Exception as e: print(...)]. *)
Definition try_move (src dst : string) : M state unit :=
  try_except
    (fs_call (fs_move src dst);;
     print (msg_moved src dst))
    (fun e => print (msg_error e)).

(** Lines 245-249: record the extension under ["Other"]. *)
Definition learn (ext : string) : M state unit :=
  let* cats := gets categories in
  (if Dict.mem "Other" cats then ret tt
   else
     let* l := alloc [] in
     modify (set_categories (Dict.set "Other" (VDict l) cats)));;
  let* cats := gets categories in
  match Dict.get "Other" cats with
  | Some (VDict l) =>
      let* d := read l in
      if Dict.mem ext d then ret tt else write l (Dict.set ext (JArr []) d)
  | Some (VOther n) =>
      let* known := lift (py_in ext (json_of_nondict n)) in
      if known : bool then ret tt else raise TypeError
  | None => raise (Exn "KeyError" "Other")
  end.

(** Lines 241-265. Line 256 formats [category_path], a local that no
    statement has assigned on this path. *)
Definition move_to_other (self : FileOrganizer) (ext file_path : string) : M state unit :=
  print (msg_new_type ext);;
  learn ext;;
  let* cats := gets categories in
  save_categories cats;;
  let other_path := PyStr.join (folder_to_watch self) ["Other"] in
  let* present := gets (fun s => fs_exists other_path (disk s)) in
  (if present : bool then ret tt
   else
     fs_call (fs_makedirs false other_path);;
     raise UnboundLocalError);;
  let new_path := PyStr.join other_path [PyStr.basename file_path] in
  try_move file_path new_path.

(** Lines 225-237. *)
Definition move_to_category (self : FileOrganizer) (category subcategory file_path : string)
    : M state unit :=
  let category_path := PyStr.join (folder_to_watch self) [category; subcategory] in
  let* present := gets (fun s => fs_exists category_path (disk s)) in
  (if present : bool then ret tt else fs_call (fs_makedirs false category_path));;
  let new_path := PyStr.join category_path [PyStr.basename file_path] in
  try_move file_path new_path.

Definition file_extension (file_path : string) : string :=
  PyStr.lower (PyStr.splitext_ext file_path).

(** The folder a file goes to, by what the loops found. *)
Definition destination_folder (self : FileOrganizer) (found : option (string * string))
    : string :=
  match found with
  | Some (category, subcategory) => PyStr.join (folder_to_watch self) [category; subcategory]
  | None => PyStr.join (folder_to_watch self) ["Other"]
  end.

Definition organise_downloads (self : FileOrganizer) (file_path : string) : M state unit :=
  let ext := file_extension file_path in
  print (msg_processing file_path ext);;
  let* found := (fun s => (find_match (heap s) ext (categories s), s)) in
  match found with
  | Some (category, subcategory) => move_to_category self category subcategory file_path
  | None => move_to_other self ext file_path
  end.

(** *** [organize_files_in_directory] *)

Definition organize_file (self : FileOrganizer) (file_name : string) : M state unit :=
  let file_path := PyStr.join (folder_to_watch self) [file_name] in
  let* is_file := gets (fun s => fs_isfile file_path (disk s)) in
  if is_file : bool then organise_downloads self file_path else ret tt.

Definition organize_files_in_directory (self : FileOrganizer) : M state unit :=
  print ("Starting to organize files in " ++ folder_to_watch self);;
  let* names := (fun s => (fs_listdir (folder_to_watch self) (disk s), s)) in
  for_each (organize_file self) names.

End Engine.
End Ext.

(** ** The keyword variant: [src/file_organiser_documents.py] *)

Module Kw.
Section Engine.
Context {fs : Type} `{Filesystem fs}.

(** The working directory of the process, and what the user types at
    each [input(prompt)]. *)
Variable cwd : string.
Variable input : string -> string.

(** The mutable state: [MappingManager.mapping] (one object, never
    shared with a default), the mapping file ([None]: absent), the
    filesystem and the console. *)
Record state : Type := State {
  mapping : json;
  store : option json;
  disk : fs;
  console : list string;
}.

Definition set_mapping (m : json) (s : state) : state :=
  State m (store s) (disk s) (console s).
Definition set_store (d : option json) (s : state) : state :=
  State (mapping s) d (disk s) (console s).
Definition set_disk (d : fs) (s : state) : state :=
  State (mapping s) (store s) d (console s).
Definition set_console (c : list string) (s : state) : state :=
  State (mapping s) (store s) (disk s) c.

Definition print (line : string) : M state unit :=
  modify (fun s => set_console (console s ++ [line]) s).

Definition fs_call (op : fs -> fs * option exn) : M state unit :=
  fun s =>
    let '(d, r) := op (disk s) in
    (match r with None => Ok tt | Some e => Raise e end, set_disk d s).

(** *** [MappingManager] *)

Definition kws (l : list string) : json := JArr (map JStr l).

Definition default_mapping : list (string * json) :=
  [ ("University", kws ["UOW"; "Scanned Documents"; "SupportingDocumentation"]);
    ("Personal", kws ["invitation"; "21st"]);
    ("Gaming", kws ["Gaming"; "WB Games"; "Horizon Forbidden West"; "My Games"]);
    ("Miscellaneous", kws []);
    ("Code", kws ["Python Scripts"; "GitHub"; "QtDesignStudio"; "Robocode";
                  "Visual Studio 2022"]);
    ("Software", kws ["Blackmagic Design"; "MAXON"; "Custom Office Templates"]);
    ("Backups", kws ["Anki Backup"]) ].

(** [json.load]: the top-level object becomes a dict. *)
Definition json_load (doc : json) : json :=
  match doc with
  | JObj kvs => JObj (Dict.of_pairs kvs)
  | _ => doc
  end.



Definition save_mapping : M state unit :=
  modify (fun s => set_store (Some (mapping s)) s).

(** On a mapping that is not a dict, either the membership test or the
    subscript raises [TypeError]; a category bound to something that is
    not a list has no [append]. *)
Definition add_category (category keyword : string) : M state unit :=
  let* m := gets mapping in
  match m with
  | JObj d =>
      let d1 := if Dict.mem category d then d else Dict.set category (JArr []) d in
      match Dict.get category d1 with
      | Some (JArr xs) =>
          modify (set_mapping (JObj (Dict.set category (JArr (xs ++ [JStr keyword])) d1)))
      | Some _ =>
          modify (set_mapping (JObj d1));;
          raise AttributeError
      | None => raise (Exn "KeyError" category)
      end
  | _ => raise TypeError
  end.

(** *** [FileMover.move_item] *)

Definition msg_skip_self (item_path : string) : string :=
  "Skipping: Cannot move '" ++ item_path ++ "' into itself.".
Definition msg_moved_to (item category : string) : string :=
  "Moved '" ++ item ++ "' to '" ++ category ++ "'".

Definition move_item (item_path target_folder : string) : M state unit :=
  fs_call (fs_makedirs true target_folder);;
  let destination_path := PyStr.join target_folder [PyStr.basename item_path] in
  if String.eqb (PyStr.abspath cwd item_path) (PyStr.abspath cwd destination_path) then
    print (msg_skip_self item_path)
  else
    let* is_dir := gets (fun s => fs_isdir item_path (disk s)) in
    let* nested :=
      if is_dir : bool then
        match PyStr.commonpath item_path destination_path with
        | Some c => ret (String.eqb c (PyStr.abspath cwd item_path))
        | None => raise ValueError
        end
      else ret false in
    if nested : bool then
      print ("Skipping: Cannot move folder '" ++ item_path ++ "' into itself.")
    else fs_call (fs_move item_path destination_path).

(** *** [FolderOrganizer] *)

(** What iterating a value yields: the elements of a list, the characters
    of a [str], the keys of a dict. *)
Definition iterate (v : json) : result (list json) :=
  match v with
  | JArr xs => Ok xs
  | JStr s => Ok (map JStr (PyStr.chars s))
  | JObj kvs => Ok (map JStr (Dict.keys (Dict.of_pairs kvs)))
  | _ => Raise TypeError
  end.

(** [any(keyword.lower() in item.lower() for keyword in keywords)], over
    the elements that the iteration yields: it stops at the first hit, and
    only a [str] has [lower()]. *)
Fixpoint any_keyword (item : string) (keywords : list json) : result bool :=
  match keywords with
  | [] => Ok false
  | JStr keyword :: r =>
      if PyStr.contains (PyStr.lower keyword) (PyStr.lower item) then Ok true
      else any_keyword item r
  | _ :: _ => Raise AttributeError
  end.

Definition matches (item : string) (keywords : json) : result bool :=
  match iterate keywords with
  | Ok xs => any_keyword item xs
  | Raise e => Raise e
  end.

(** The loop of lines 86-92 up to its first hit. *)
Fixpoint find_category (item : string) (m : list (string * json)) : result (option string) :=
  match m with
  | [] => Ok None
  | (category, keywords) :: r =>
      match matches item keywords with
      | Raise e => Raise e
      | Ok true => Ok (Some category)
      | Ok false => find_category item r
      end
  end.

(** [path.isdir(item_path) and item in mapping.keys()]. *)
Definition is_category_folder (item_path item : string) : M state bool :=
  let* is_dir := gets (fun s => fs_isdir item_path (disk s)) in
  if is_dir : bool then
    let* m := gets mapping in
    match m with
    | JObj d => ret (Dict.mem item d)
    | _ => raise AttributeError
    end
  else ret false.

Definition handle_uncategorized_item (source_folder item_path item : string) : M state unit :=
  let* skip := is_category_folder item_path item in
  if skip : bool then print ("Skipping category folder: '" ++ item ++ "'")
  else
    print ("Uncategorized item found: '" ++ item ++ "'");;
    let prompt : string :=
      ("Enter a category for '" ++ item
       ++ "' (or press Enter for 'Miscellaneous'): ")%string in
    print prompt;;
    let answer := PyStr.strip (input prompt) in
    let new_category := if String.eqb answer "" then "Miscellaneous" else answer in
    add_category new_category item;;
    move_item item_path (PyStr.join source_folder [new_category]);;
    print (msg_moved_to item new_category);;
    save_mapping.

(** The body of the loop of lines 76-96. *)
Definition organize_item (source_folder item : string) : M state unit :=
  let item_path := PyStr.join source_folder [item] in
  let* skip := is_category_folder item_path item in
  if skip : bool then ret tt
  else
    let* m := gets mapping in
    match m with
    | JObj d =>
        let* found := lift (find_category item d) in
        match found with
        | Some category =>
            move_item item_path (PyStr.join source_folder [category]);;
            print (msg_moved_to item category)
        | None => handle_uncategorized_item source_folder item_path item
        end
    | _ => raise AttributeError
    end.


End Engine.
End Kw.

(** ** A small filesystem, for running the passes on concrete inputs *)

Module Toy.

(** Files and directories by normalised path. A move of a [locked] path
    fails, and so does a move of a directory to a place under itself.
    [moves] is no part of the filesystem: it is a log of the calls of the
    move primitive, kept to tell a run that never called it from one in
    which the call changed nothing. *)
Record fsys : Type := Fsys {
  files : list string;
  dirs : list string;
  locked : list string;
  moves : list (string * string);
}.

Definition has (p : string) (l : list string) : bool :=
  existsb (String.eqb (PyStr.normpath p)) l.

Fixpoint strip_prefix (p s : string) : option string :=
  match p, s with
  | EmptyString, _ => Some s
  | String a p', String b s' => if Ascii.eqb a b then strip_prefix p' s' else None
  | String _ _, EmptyString => None
  end.

(** The name of [p] when [p] lies directly in [d]. *)
Definition child_of (d p : string) : option string :=
  match strip_prefix (PyStr.normpath d ++ "/") p with
  | Some n => if PyStr.has_sep n || String.eqb n "" then None else Some n
  | None => None
  end.

Definition listdir (d : string) (f : fsys) : result (list string) :=
  if has d (dirs f) then Ok (omap (child_of d) (files f ++ dirs f))
  else Raise (Exn "FileNotFoundError" d).

Definition makedirs (exist_ok : bool) (p : string) (f : fsys) : fsys * option exn :=
  if has p (dirs f) then (f, if exist_ok then None else Some (Exn "FileExistsError" p))
  else if has p (files f) then (f, Some (Exn "FileExistsError" p))
  else (Fsys (files f) (dirs f ++ [PyStr.normpath p]) (locked f) (moves f), None).

Definition rename (src dst : string) (l : list string) : list string :=
  map (fun p => if String.eqb p (PyStr.normpath src) then PyStr.normpath dst else p) l.

(** [b] lies under the directory [a]. *)
Definition under (a b : string) : bool :=
  match strip_prefix (a ++ "/") b with
  | Some _ => true
  | None => false
  end.

(** The path [p] once the directory [a] has become [b]. *)
Definition rebase (a b p : string) : string :=
  if String.eqb p a then b
  else match strip_prefix (a ++ "/") p with
       | Some rest => b ++ "/" ++ rest
       | None => p
       end.

Definition move (src dst : string) (f : fsys) : fsys * option exn :=
  let called := moves f ++ [(src, dst)] in
  if has src (locked f) then
    (Fsys (files f) (dirs f) (locked f) called, Some (Exn "PermissionError" src))
  else if has src (files f) then
    (Fsys (rename src dst (files f)) (dirs f) (locked f) called, None)
  else if has src (dirs f) then
    if under (PyStr.normpath src) (PyStr.normpath dst) then
      (Fsys (files f) (dirs f) (locked f) called,
       Some (Exn "shutil.Error" "Cannot move a directory into itself"))
    else
      (Fsys (map (rebase (PyStr.normpath src) (PyStr.normpath dst)) (files f))
            (map (rebase (PyStr.normpath src) (PyStr.normpath dst)) (dirs f))
            (locked f) called, None)
  else (Fsys (files f) (dirs f) (locked f) called, Some (Exn "FileNotFoundError" src)).

#[global] Instance toy_filesystem : Filesystem fsys := {
  fs_exists p f := has p (files f) || has p (dirs f);
  fs_isdir p f := has p (dirs f);
  fs_isfile p f := has p (files f);
  fs_listdir := listdir;
  fs_makedirs := makedirs;
  fs_move := move;
}.

End Toy.

(** ** A filesystem with a working directory

    Files and directories by absolute normalised path; a path that is
    given is resolved against the working directory, as the system calls
    behind [os] and [shutil] do. [makedirs] with [exist_ok] set leaves an
    existing directory alone. [move] follows [shutil.move]: a path moved
    onto itself is left as it is ([os.rename] of a path to itself), an
    item moved to an existing directory goes inside it, a directory is not
    moved to a place under itself, and a directory is moved with what it
    holds. *)

Module Posix.

Record fsys : Type := Fsys {
  cwd : string;
  files : list string;
  dirs : list string;
}.

Definition resolve (f : fsys) (p : string) : string := PyStr.abspath (cwd f) p.

Definition has (f : fsys) (p : string) (l : list string) : bool :=
  existsb (String.eqb (resolve f p)) l.

Definition present (p : string) (f : fsys) : bool :=
  has f p (files f) || has f p (dirs f).

(** The name of [p] when [p] lies directly in the directory [d]. *)
Definition child_of (d p : string) : option string :=
  match Toy.strip_prefix (d ++ "/") p with
  | Some n => if PyStr.has_sep n || String.eqb n "" then None else Some n
  | None => None
  end.

Definition listdir (d : string) (f : fsys) : result (list string) :=
  if has f d (dirs f) then Ok (omap (child_of (resolve f d)) (files f ++ dirs f))
  else Raise (Exn "FileNotFoundError" d).

Definition makedirs (exist_ok : bool) (p : string) (f : fsys) : fsys * option exn :=
  if has f p (dirs f) then (f, if exist_ok then None else Some (Exn "FileExistsError" p))
  else if has f p (files f) then (f, Some (Exn "FileExistsError" p))
  else (Fsys (cwd f) (files f) (dirs f ++ [resolve f p]), None).

Definition move (src dst : string) (f : fsys) : fsys * option exn :=
  if negb (present src f) then (f, Some (Exn "FileNotFoundError" src))
  else if String.eqb (resolve f src) (resolve f dst) then (f, None)
  else
    let real_dst :=
      if has f dst (dirs f) then PyStr.join dst [PyStr.basename src] else dst in
    if has f dst (dirs f) && present real_dst f then
      (f, Some (Exn "shutil.Error" "Destination path already exists"))
    else if has f src (dirs f) && Toy.under (resolve f src) (resolve f real_dst) then
      (f, Some (Exn "shutil.Error" "Cannot move a directory into itself"))
    else
      (Fsys (cwd f)
            (map (Toy.rebase (resolve f src) (resolve f real_dst)) (files f))
            (map (Toy.rebase (resolve f src) (resolve f real_dst)) (dirs f)), None).

#[global] Instance posix_filesystem : Filesystem fsys := {
  fs_exists := present;
  fs_isdir p f := has f p (dirs f);
  fs_isfile p f := has f p (files f);
  fs_listdir := listdir;
  fs_makedirs := makedirs;
  fs_move := move;
}.

End Posix.

(** ** Concrete runs *)

Module Run.
Import Ext.

(** A watched folder [d] with three files and no ["Other"] folder yet. *)
Definition downloads : Toy.fsys :=
  Toy.Fsys ["d/a.xyz"; "d/b.exe"; "d/c.xyz"] ["d"] [] [].

(** The same folder once ["Other"] exists. *)
Definition downloads_other : Toy.fsys :=
  Toy.Fsys ["d/a.xyz"; "d/b.exe"; "d/c.xyz"] ["d"; "d/Other"] [] [].

(** The state in which a [FileOrganizer] is constructed, with the given
    schema file. *)
Definition fresh_state (doc : option json) (f : Toy.fsys) : state (fs:=Toy.fsys) :=
  State ∅ [] doc f [].

(** The dict that a category of the default is bound to. *)
Definition default_dict (self : FileOrganizer) (s : state (fs:=Toy.fsys)) (c : string)
    : option (list (string * json)) :=
  match Dict.get c (default_categories self) with
  | Some l => Some (deref l (heap s))
  | None => None
  end.

(** The value that a subcategory of [self.categories] is bound to. *)
Definition extensions_of (s : state (fs:=Toy.fsys)) (c sub : string) : option json :=
  match Dict.get c (categories s) with
  | Some (VDict l) => Dict.get sub (deref l (heap s))
  | _ => None
  end.

(** [FileOrganizer("d", json_file)] and then [body], from [s]. *)
Definition with_organizer {A} (body : FileOrganizer -> M (state (fs:=Toy.fsys)) A)
    (s : state (fs:=Toy.fsys)) : result A * state (fs:=Toy.fsys) :=
  (let* self := init "d" in body self) s.

(** The organizer that [init] builds from an empty heap. *)
Definition self0 : FileOrganizer :=
  {| folder_to_watch := "d";
     default_categories :=
       [ ("Documents & Data", 0); ("Development", 1); ("Executables", 2);
         ("Archives", 3); ("Disk Image", 4); ("Presentations", 5);
         ("Spreadsheets", 6); ("Other", 7) ] |}.

(** A schema file that lists one installer extension only. *)
Definition short_doc : list (string * json) :=
  [ ("Executables", JObj [ ("Installers", exts [".exe"]) ]) ].


(** A schema in which two categories list [.csv], after one that does
    not; the later of the two comes first in the alphabet. *)
Definition two_hits_doc : list (string * json) :=
  [ ("Notes", JObj [ ("Text", exts [".txt"]) ]);
    ("Zebra", JObj [ ("Pictures", exts [".png"]); ("Tables", exts [".csv"]);
                     ("More", exts [".csv"]) ]);
    ("Alpha", JObj [ ("Sheets", exts [".csv"]) ]) ].

(** The state after the default literal is evaluated, with [doc] in the
    schema file. *)
Definition booted (doc : option json) (f : Toy.fsys) : state (fs:=Toy.fsys) :=
  snd (alloc_literal default_literal (fresh_state doc f)).

(** The keyword variant: a folder with two items, the first of which
    cannot be moved. *)
Definition documents : Toy.fsys :=
  Toy.Fsys ["docs/UOW notes.txt"; "docs/invitation.pdf"] ["docs"]
           ["docs/UOW notes.txt"] [].


(** The user presses Enter at every prompt. *)
Definition just_enter (prompt : string) : string := "".

(** A mapping in which two categories have a keyword of the item; the
    later one comes first in the alphabet. *)
Definition two_hits_mapping : list (string * json) :=
  [ ("Music", Kw.kws ["mp3"]); ("Zulu", Kw.kws ["draft"; "report"]);
    ("Alpha", Kw.kws ["Report"; "notes"]) ].

(** The state after [FileOrganizer("d", json_file)]. *)
Definition organized (doc : option json) (f : Toy.fsys) : state (fs:=Toy.fsys) :=
  snd (with_organizer (fun self => ret self) (fresh_state doc f)).

(** A schema file in which a category of the user is bound to a list. *)
Definition list_category_doc : list (string * json) :=
  [ ("Mine", JArr [JStr ".foo"]) ].

(** A schema file that lists an extension in capitals. *)
Definition capitals_doc : list (string * json) :=
  [ ("Mine", JObj [ ("Scans", exts [".PDF"; ".Jpg"]) ]) ].

(** The default schema as a document, with one subcategory bound to a
    string instead of a list. *)
Definition reset_doc : list (string * json) :=
  map (fun kv => (fst kv,
                  JObj (if String.eqb (fst kv) "Disk Image"
                        then [("ISO & Disk Images", JStr ".iso")]
                        else snd kv)))
      default_literal.

(** A folder with a subfolder and no file. *)
Definition only_folders : Toy.fsys := Toy.Fsys [] ["d"; "d/old"; "d/Other"] [] [].

(** The keyword variant: a folder given by an absolute path, with a
    subfolder [Proj] and a file. *)
Definition abs_documents : Toy.fsys :=
  Toy.Fsys ["/docs/todo.txt"] ["/docs"; "/docs/Proj"] [] [].

(** The same folder with the file locked. *)
Definition abs_documents_locked : Toy.fsys :=
  Toy.Fsys ["/docs/todo.txt"] ["/docs"; "/docs/Proj"] ["/docs/todo.txt"] [].

(** The keyword variant: a folder given by a relative path, with a
    subfolder [Proj]. *)
Definition rel_documents : Toy.fsys := Toy.Fsys [] ["docs"; "docs/Proj"] [] [].

(** The user answers every prompt with a few blanks. *)
Definition blanks (prompt : string) : string := "   ".

(** The user answers every prompt with [Proj]. *)
Definition answer_proj (prompt : string) : string := " Proj ".





(** The keyword variant: a folder given by a relative path, with a
    subfolder [Proj], and a folder [/srv]. *)
Definition rel_documents_srv : Toy.fsys :=
  Toy.Fsys [] ["docs"; "docs/Proj"; "/srv"] [] [].

End Run.

(** ** Predicates on schemas and heaps *)

Module Inv.
Import Ext.

(** Every name bound in [dd] is bound in [d] to a list. *)
Definition covers (dd d : list (string * json)) : Prop :=
  forall sub e, In (sub, e) dd ->
    exists v, Dict.get sub d = Some v /\ is_list v = true.

(** [d'] keeps the names of [d], and its lists as they are. *)
Definition dict_le (d d' : list (string * json)) : Prop :=
  forall k v, Dict.get k d = Some v ->
    exists v', Dict.get k d' = Some v' /\ (is_list v = true -> v' = v).

Definition heap_le (h h' : gmap loc (list (string * json))) : Prop :=
  forall l d, h !! l = Some d -> exists d', h' !! l = Some d' /\ dict_le d d'.

(** [cats'] keeps the names of [cats], and the dicts they are bound to. *)
Definition cats_le (cats cats' : list (string * pyval)) : Prop :=
  forall c v, Dict.get c cats = Some v ->
    exists v', Dict.get c cats' = Some v' /\ (forall l, v = VDict l -> v' = VDict l).

(** The category [c] of the default, a dict at [dl], is reconciled: [c] is
    bound to a dict that has every subcategory of the default, as a list. *)
Definition synced (cats : list (string * pyval)) (h : gmap loc (list (string * json)))
    (c : string) (dl : loc) : Prop :=
  exists l, Dict.get c cats = Some (VDict l) /\ covers (deref dl h) (deref l h).

Definition all_lists (d : list (string * json)) : bool :=
  forallb (fun kv => is_list (snd kv)) d.

Fixpoint nodupb (l : list string) : bool :=
  match l with
  | [] => true
  | x :: r => negb (existsb (String.eqb x) r) && nodupb r
  end.

(** The default schema is in place: its category names are distinct, and
    each is bound to an allocated dict of lists. *)
Definition wf_default (self : FileOrganizer) (h : gmap loc (list (string * json))) : bool :=
  nodupb (map fst (default_categories self))
  && forallb (fun kv => match h !! snd kv with
                        | Some d => all_lists d
                        | None => false
                        end) (default_categories self).

(** The effect of one iteration of the inner loop of [sync_categories] on
    the dict it works on. *)
Definition sub_step (d : list (string * json)) (item : string * json) : list (string * json) :=
  let d1 := if Dict.mem (fst item) d then d else Dict.set (fst item) (snd item) d in
  match Dict.get (fst item) d1 with
  | Some v => if is_list v then d1 else Dict.set (fst item) (snd item) d1
  | None => d1
  end.

(** The dict that an iteration of the outer loop of [sync_categories]
    works on. *)
Definition target (cats : list (string * pyval)) (c : string) (dl : loc) : loc :=
  match Dict.get c cats with
  | Some (VDict l) => l
  | _ => dl
  end.

(** A category in which no subcategory lists [ext]. *)
Definition unmatched_entry (h : gmap loc (list (string * json))) (ext : string)
    (kv : string * pyval) : Prop :=
  exists l, snd kv = VDict l /\ find_subcategory ext (deref l h) = Ok None.

(** A schema as a Python program holds it: distinct category names, and
    distinct names in every category dict. *)
Definition wf_schema (h : gmap loc (list (string * json)))
    (cats : list (string * pyval)) : bool :=
  nodupb (map fst cats)
  && forallb (fun kv => match snd kv with
                        | VDict l => nodupb (map fst (deref l h))
                        | VOther _ => true
                        end) cats.

(** The pairs that [json.dump] writes for a schema. *)
Definition dump_pairs (h : gmap loc (list (string * json)))
    (cats : list (string * pyval)) : list (string * json) :=
  map (fun kv => (fst kv, dump_value h (snd kv))) cats.

(** The document has every category of the default, as an object, with
    every subcategory name of the default. *)
Definition complete_doc (self : FileOrganizer) (h : gmap loc (list (string * json)))
    (L : list (string * json)) : bool :=
  forallb (fun kv =>
             match Dict.get (fst kv) (Dict.of_pairs L) with
             | Some (JObj sub) =>
                 forallb (fun ke => Dict.mem (fst ke) (Dict.of_pairs sub))
                         (deref (snd kv) h)
             | _ => false
             end) (default_categories self).

(** No extension of the list is its own lower-case form. *)
Definition all_have_capitals (es : list string) : bool :=
  forallb (fun e => negb (String.eqb (PyStr.lower e) e)) es.

(** The prompt of [handle_uncategorized_item]. *)
Definition prompt_for (item : string) : string :=
  "Enter a category for '" ++ item ++ "' (or press Enter for 'Miscellaneous'): ".

(** The category that [handle_uncategorized_item] files an item under, by
    what the user types. *)
Definition chosen_category (input : string -> string) (item : string) : string :=
  let answer := PyStr.strip (input (prompt_for item)) in
  if String.eqb answer "" then "Miscellaneous" else answer.

(** The notice of the second guard of [move_item]. *)
Definition msg_skip_folder (item_path : string) : string :=
  "Skipping: Cannot move folder '" ++ item_path ++ "' into itself.".

Fixpoint all_space (s : string) : bool :=
  match s with
  | EmptyString => true
  | String c r => PyStr.is_space c && all_space r
  end.

(** The filesystem in which [organise_downloads] calls the move
    primitive, when it gets that far. With the destination folder in
    place it is the filesystem as it is. Without it, a matched file has
    the folder made first; if [makedirs] raises, the exception leaves the
    function. An unmatched file never gets that far (line 256). *)
Definition ensure_folder {fs : Type} `{Filesystem fs} (self : FileOrganizer)
    (found : option (string * string)) (d : fs) : option fs :=
  let folder := destination_folder self found in
  if fs_exists folder d then Some d
  else
    match found with
    | Some _ =>
        match snd (fs_makedirs false folder d) with
        | None => Some (fst (fs_makedirs false folder d))
        | Some _ => None
        end
    | None => None
    end.

(** The first line of [organize_files_in_directory]. *)
Definition msg_starting (self : FileOrganizer) : string :=
  "Starting to organize files in " ++ folder_to_watch self.

(** The category is absent from the mapping or bound to a list. *)
Definition appendable (c : string) (d : list (string * json)) : bool :=
  match Dict.get c d with
  | None => true
  | Some (JArr _) => true
  | Some _ => false
  end.

End Inv.

Arguments PyStr.join : simpl never.
Arguments PyStr.basename : simpl never.
Arguments Ext.msg_processing : simpl never.
Arguments Ext.msg_moved : simpl never.
Arguments Ext.msg_error : simpl never.
Arguments Ext.msg_new_type : simpl never.
Arguments Ext.file_extension : simpl never.
Arguments Kw.msg_skip_self : simpl never.
Arguments Kw.msg_moved_to : simpl never.

(** ** Association lists as dicts *)

Section DictFacts.
Context {V : Type}.
Implicit Types (d : list (string * V)) (k : string) (v : V).

Lemma get_set_eq d k v : Dict.get k (Dict.set k v d) = Some v.
Proof.
  induction d as [|[k' v'] r IH]; simpl.
  - by rewrite String.eqb_refl.
  - destruct (String.eqb k k') eqn:E; simpl; rewrite E; [done | exact IH].
Qed.

Lemma get_set_ne d k k' v : k <> k' -> Dict.get k' (Dict.set k v d) = Dict.get k' d.
Proof.
  intros Hne. induction d as [|[k0 v0] r IH]; simpl.
  - destruct (String.eqb k' k) eqn:E; [|done].
    apply String.eqb_eq in E. congruence.
  - destruct (String.eqb k k0) eqn:E; simpl.
    + apply String.eqb_eq in E. subst k0.
      destruct (String.eqb k' k) eqn:E'; [|done].
      apply String.eqb_eq in E'. congruence.
    + by rewrite IH.
Qed.

Lemma get_set d k k' v :
  Dict.get k' (Dict.set k v d) = if String.eqb k k' then Some v else Dict.get k' d.
Proof.
  destruct (String.eqb k k') eqn:E.
  - apply String.eqb_eq in E. subst. apply get_set_eq.
  - apply String.eqb_neq in E. by apply get_set_ne.
Qed.

Lemma mem_true d k : Dict.mem k d = true <-> exists v, Dict.get k d = Some v.
Proof.
  unfold Dict.mem. destruct (Dict.get k d); split; eauto; try done.
  by intros [? ?].
Qed.

Lemma mem_false d k : Dict.mem k d = false <-> Dict.get k d = None.
Proof. unfold Dict.mem. by destruct (Dict.get k d). Qed.

(** The first binding of a name is one of the pairs. *)
Lemma get_In d k v : Dict.get k d = Some v -> In (k, v) d.
Proof.
  induction d as [|[k' v'] r IH]; simpl; [done|].
  destruct (String.eqb k k') eqn:E.
  - apply String.eqb_eq in E. intros [= ->]. subst. by left.
  - intros Hg. right. by apply IH.
Qed.

(** A name that occurs in a pair is bound, to the value of its first pair. *)
Lemma In_get d k v : In (k, v) d -> exists v', Dict.get k d = Some v' /\ In (k, v') d.
Proof.
  induction d as [|[k' v'] r IH]; simpl; [done|].
  intros [Heq | Hin].
  - injection Heq as -> ->. rewrite String.eqb_refl. eauto.
  - destruct (String.eqb k k') eqn:E.
    + apply String.eqb_eq in E. subst. eauto.
    + destruct (IH Hin) as (v0 & Hg & Hi). eauto.
Qed.

(** Assigning to a new name appends the pair. *)
Lemma set_absent d k v : Dict.get k d = None -> Dict.set k v d = d ++ [(k, v)].
Proof.
  induction d as [|[k' v'] r IH]; simpl; [done|].
  destruct (String.eqb k k') eqn:E; [done|].
  intros Hg. by rewrite IH.
Qed.

(** Assigning to a name the value it has changes nothing. *)
Lemma set_same d k v : Dict.get k d = Some v -> Dict.set k v d = d.
Proof.
  induction d as [|[k' v'] r IH]; simpl; [done|].
  destruct (String.eqb k k') eqn:E.
  - by intros [= ->].
  - intros Hg. by rewrite IH.
Qed.

End DictFacts.

(** ** Loops in the monad *)

Section MonadFacts.
Context {S A B : Type}.

Lemma for_fold_cons (body : B -> A -> M S B) acc x r (s : S) acc1 s1 :
  body acc x s = (Ok acc1, s1) ->
  for_fold body acc (x :: r) s = for_fold body acc1 r s1.
Proof. intros Hb. simpl. unfold bind. by rewrite Hb. Qed.


Lemma bind_ok (c : M S A) (k : A -> M S B) (s : S) a s1 :
  c s = (Ok a, s1) -> bind c k s = k a s1.
Proof. intros Hc. unfold bind. by rewrite Hc. Qed.

Lemma bind_raise (c : M S A) (k : A -> M S B) (s : S) e s1 :
  c s = (Raise e, s1) -> bind c k s = (Raise e, s1).
Proof. intros Hc. unfold bind. by rewrite Hc. Qed.

End MonadFacts.

(** ** The reconciliation loop *)

Section SyncFacts.
Import Ext Inv.
Context {fs : Type} `{Filesystem fs}.
Implicit Types (s : state (fs:=fs)) (h : gmap loc (list (string * json))).
Implicit Types (d : list (string * json)) (cats : list (string * pyval)).

Ltac munfold :=
  unfold sync_subcategory, sync_category, save_categories, read, write, print,
    alloc, bind, ret, raise, gets, modify, lift, set_heap, set_console, set_store,
    set_categories, set_disk; simpl.

Lemma deref_insert_eq h l d : deref l (<[l:=d]> h) = d.
Proof. unfold deref. by rewrite lookup_insert_eq. Qed.

Lemma deref_insert_ne h l l' d : l <> l' -> deref l' (<[l:=d]> h) = deref l' h.
Proof. intros Hne. unfold deref. by rewrite lookup_insert_ne. Qed.

Lemma dict_le_refl d : dict_le d d.
Proof. intros k v Hg. eauto. Qed.

Lemma dict_le_trans d1 d2 d3 : dict_le d1 d2 -> dict_le d2 d3 -> dict_le d1 d3.
Proof.
  intros H12 H23 k v Hg.
  destruct (H12 k v Hg) as (v2 & Hg2 & Hv2).
  destruct (H23 k v2 Hg2) as (v3 & Hg3 & Hv3).
  exists v3. split; [done|]. intros Hl.
  specialize (Hv2 Hl). subst v2. by apply Hv3.
Qed.

(** Binding a new name, or rebinding one that is not bound to a list. *)
Lemma dict_le_set d k e :
  (forall v, Dict.get k d = Some v -> is_list v = false) -> dict_le d (Dict.set k e d).
Proof.
  intros Hk k' v Hg. rewrite get_set.
  destruct (String.eqb k k') eqn:E.
  - apply String.eqb_eq in E. subst k'. exists e. split; [done|].
    intros Hl. rewrite (Hk v Hg) in Hl. discriminate.
  - eauto.
Qed.

Lemma sub_step_le d item : dict_le d (sub_step d item).
Proof.
  destruct item as [sub e]. unfold sub_step. simpl.
  destruct (Dict.mem sub d) eqn:Hm.
  - destruct (Dict.get sub d) as [v|] eqn:Hg; [|apply dict_le_refl].
    destruct (is_list v) eqn:Hl; [apply dict_le_refl|].
    apply dict_le_set. intros v' Hg'. congruence.
  - apply mem_false in Hm. rewrite get_set_eq.
    assert (dict_le d (Dict.set sub e d)) as H1.
    { apply dict_le_set. intros v Hg. congruence. }
    destruct (is_list e) eqn:Hl; [done|].
    eapply dict_le_trans; [exact H1|].
    apply dict_le_set. intros v. rewrite get_set_eq. by intros [= <-].
Qed.

Lemma sub_step_list d sub e :
  is_list e = true ->
  exists v, Dict.get sub (sub_step d (sub, e)) = Some v /\ is_list v = true.
Proof.
  intros He. unfold sub_step. simpl.
  destruct (Dict.mem sub d) eqn:Hm.
  - apply mem_true in Hm as [v Hg]. rewrite Hg.
    destruct (is_list v) eqn:Hl; [eauto|].
    exists e. by rewrite get_set_eq.
  - rewrite get_set_eq, He. exists e. by rewrite get_set_eq.
Qed.

(** One iteration of the inner loop returns, and either leaves the state
    as it is or rebinds the dict it works on. *)
Lemma sync_subcategory_spec c l u item s :
  exists u' s',
    sync_subcategory c l u item s = (Ok u', s') /\
    ((s' = s /\ u' = u /\ sub_step (deref l (heap s)) item = deref l (heap s))
     \/ heap s' = <[l := sub_step (deref l (heap s)) item]> (heap s)).
Proof.
  destruct item as [sub e]. unfold sub_step. munfold.
  destruct (Dict.mem sub (deref l (heap s))) eqn:Hm; simpl.
  - pose proof Hm as Hm'. apply mem_true in Hm' as [v Hg]. rewrite Hg.
    destruct (is_list v); simpl.
    + do 2 eexists. split; [reflexivity|]. left. by destruct s.
    + do 2 eexists. split; [reflexivity|]. by right.
  - rewrite deref_insert_eq, get_set_eq.
    destruct (is_list e); simpl.
    + do 2 eexists. split; [reflexivity|]. by right.
    + do 2 eexists. split; [reflexivity|]. right. simpl.
      by rewrite insert_insert_eq.
Qed.

(** What one iteration does to the heap. *)
Lemma sync_subcategory_heap c l u item s :
  exists u' s',
    sync_subcategory c l u item s = (Ok u', s') /\
    (forall l', l' <> l -> heap s' !! l' = heap s !! l') /\
    deref l (heap s') = sub_step (deref l (heap s)) item /\
    (is_Some (heap s !! l) -> is_Some (heap s' !! l)).
Proof.
  destruct (sync_subcategory_spec c l u item s) as (u' & s' & Hrun & Hcase).
  exists u', s'. split; [done|].
  destruct Hcase as [(-> & _ & Hd) | Hh].
  - by rewrite Hd.
  - rewrite Hh. split_and!.
    + intros l' Hne. by rewrite lookup_insert_ne.
    + apply deref_insert_eq.
    + intros _. rewrite lookup_insert_eq. eauto.
Qed.

(** The inner loop returns; it touches only the dict it works on, which
    grows, and ends with every subcategory of the default bound to a
    list. *)
Lemma inner_loop_spec c l items : forall u s,
  exists u' s',
    for_fold (sync_subcategory c l) u items s = (Ok u', s') /\
    (forall l', l' <> l -> heap s' !! l' = heap s !! l') /\
    dict_le (deref l (heap s)) (deref l (heap s')) /\
    (is_Some (heap s !! l) -> is_Some (heap s' !! l)) /\
    (all_lists items = true -> covers items (deref l (heap s'))).
Proof.
  induction items as [|[sub e] r IH]; intros u s.
  - exists u, s. split_and!; try done.
    + apply dict_le_refl.
    + intros _ ? ? [].
  - destruct (sync_subcategory_heap c l u (sub, e) s) as (u1 & s1 & Hrun & Ho & Hd & Hs).
    destruct (IH u1 s1) as (u' & s' & Hrun' & Ho' & Hd' & Hs' & Hc').
    exists u', s'. split_and!.
    + by rewrite (for_fold_cons _ _ _ _ _ _ _ Hrun).
    + intros l' Hne. by rewrite Ho', Ho.
    + eapply dict_le_trans; [|exact Hd']. rewrite Hd. apply sub_step_le.
    + auto.
    + simpl. intros [He Hr]%andb_true_iff sub' e' [Heq | Hin].
      * injection Heq as <- <-.
        destruct (sub_step_list (deref l (heap s)) sub e He) as (v & Hg & Hl).
        rewrite <- Hd in Hg. destruct (Hd' sub v Hg) as (v' & Hg' & Hv').
        exists v'. split; [done|]. by rewrite (Hv' Hl).
      * by apply (Hc' Hr sub' e').
Qed.

(** On a dict that already has every subcategory as a list, the inner
    loop does nothing. *)
Lemma inner_loop_noop c l items : forall u s,
  covers items (deref l (heap s)) ->
  for_fold (sync_subcategory c l) u items s = (Ok u, s).
Proof.
  induction items as [|[sub e] r IH]; intros u s Hc; [done|].
  assert (sync_subcategory c l u (sub, e) s = (Ok u, s)) as Hrun.
  { destruct (Hc sub e) as (v & Hg & Hl); [by left|].
    munfold. unfold Dict.mem. rewrite Hg. simpl. by rewrite Hg, Hl. }
  rewrite (for_fold_cons _ _ _ _ _ _ _ Hrun).
  apply IH. intros sub' e' Hin. apply (Hc sub' e'). by right.
Qed.

(** A dict of lists has each of its names bound to a list. *)
Lemma covers_self d : all_lists d = true -> covers d d.
Proof.
  intros Hall sub e Hin.
  destruct (In_get _ _ _ Hin) as (v & Hg & Hin').
  exists v. split; [done|].
  unfold all_lists in Hall. rewrite forallb_forall in Hall.
  exact (Hall _ Hin').
Qed.

Lemma heap_le_refl h : heap_le h h.
Proof. intros l d Hl. exists d. split; [done | apply dict_le_refl]. Qed.

Lemma heap_le_trans h1 h2 h3 : heap_le h1 h2 -> heap_le h2 h3 -> heap_le h1 h3.
Proof.
  intros H12 H23 l d Hl.
  destruct (H12 l d Hl) as (d2 & Hl2 & Hd2).
  destruct (H23 l d2 Hl2) as (d3 & Hl3 & Hd3).
  exists d3. split; [done|]. by eapply dict_le_trans.
Qed.

Lemma cats_le_refl cats : cats_le cats cats.
Proof. intros c v Hg. eauto. Qed.

Lemma cats_le_trans c1 c2 c3 : cats_le c1 c2 -> cats_le c2 c3 -> cats_le c1 c3.
Proof.
  intros H12 H23 c v Hg.
  destruct (H12 c v Hg) as (v2 & Hg2 & Hv2).
  destruct (H23 c v2 Hg2) as (v3 & Hg3 & Hv3).
  exists v3. split; [done|]. intros l ->. apply Hv3. by apply Hv2.
Qed.

(** Binding a name that is absent or not bound to a dict. *)
Lemma cats_le_set cats c v :
  (forall l, Dict.get c cats <> Some (VDict l)) -> cats_le cats (Dict.set c v cats).
Proof.
  intros Hc c' v' Hg. rewrite get_set.
  destruct (String.eqb c c') eqn:E; [|eauto].
  apply String.eqb_eq in E. subst c'. exists v. split; [done|].
  intros l ->. by destruct (Hc l).
Qed.

(** One iteration of the outer loop returns; the heap and the categories
    grow; only the target dict is touched; a default category of lists
    ends reconciled, and is itself left as it is. *)
Lemma sync_category_spec cats u c dl s :
  exists cats' u' s',
    sync_category (cats, u) (c, dl) s = (Ok (cats', u'), s') /\
    heap_le (heap s) (heap s') /\
    cats_le cats cats' /\
    (forall l', l' <> target cats c dl -> heap s' !! l' = heap s !! l') /\
    (forall c', c' <> c -> Dict.get c' cats' = Dict.get c' cats) /\
    (all_lists (deref dl (heap s)) = true ->
       synced cats' (heap s') c dl /\ (target cats c dl = dl -> heap s' = heap s)).
Proof.
  unfold target.
  assert (forall cats1 l u1 s1,
    heap s1 = heap s ->
    Dict.get c cats1 = Some (VDict l) ->
    exists u' s',
      for_fold (sync_subcategory c l) u1 (deref dl (heap s)) s1 = (Ok u', s') /\
      heap_le (heap s) (heap s') /\
      (forall l', l' <> l -> heap s' !! l' = heap s !! l') /\
      (all_lists (deref dl (heap s)) = true ->
         synced cats1 (heap s') c dl /\ (l = dl -> heap s' = heap s))) as Hloop.
  { intros cats1 l u1 s1 Hh Hg.
    destruct (inner_loop_spec c l (deref dl (heap s)) u1 s1)
      as (u' & s' & Hrun & Ho & Hd & Hs & Hc).
    rewrite Hh in *.
    exists u', s'. split_and!; [done | | done |].
    - intros l0 d0 Hl0. destruct (decide (l0 = l)) as [->|Hne].
      + destruct (Hs (mk_is_Some _ _ Hl0)) as [d' Hd'].
        exists d'. split; [done|].
        unfold deref in Hd. by rewrite Hl0, Hd' in Hd.
      + exists d0. rewrite (Ho _ Hne). split; [done | apply dict_le_refl].
    - intros Hall. destruct (decide (l = dl)) as [->|Hne].
      + assert (s' = s1) as ->.
        { rewrite inner_loop_noop in Hrun; [by injection Hrun|].
          rewrite Hh. by apply covers_self. }
        rewrite Hh. split; [|done].
        exists dl. split; [done|]. by apply covers_self.
      + split; [|done]. exists l. split; [done|].
        unfold deref at 1. rewrite (Ho dl); [|done]. by apply Hc. }
  unfold sync_category.
  destruct (Dict.get c cats) as [[l|n]|] eqn:Hg.
  - destruct (Hloop cats l u s eq_refl Hg) as (u' & s' & Hrun & Hle & Ho & Hsy).
    exists cats, u', s'. split_and!; try done.
    + unfold bind, ret, read, gets. simpl. by rewrite Hrun.
    + apply cats_le_refl.
  - set (cats1 := Dict.set c (VDict dl) cats).
    set (s1 := set_console
                 (console s ++ [("Warning: " ++ c
                                 ++ " is not a dictionary, resetting to default.")%string])
                 s).
    destruct (Hloop cats1 dl true s1 eq_refl) as (u' & s' & Hrun & Hle & Ho & Hsy).
    { apply get_set_eq. }
    exists cats1, u', s'. split_and!; try done.
    + unfold bind, ret, read, gets, print, modify. simpl. fold s1. by rewrite Hrun.
    + apply cats_le_set. intros l. congruence.
    + intros c' Hne. by apply get_set_ne.
  - eexists _, _, _. split; [reflexivity|]. simpl. split_and!.
    + apply heap_le_refl.
    + apply cats_le_set. intros l. congruence.
    + done.
    + intros c' Hne. by apply get_set_ne.
    + intros Hall. split; [|done]. exists dl. split; [apply get_set_eq|].
      by apply covers_self.
Qed.

Lemma deref_le h h' l : heap_le h h' -> dict_le (deref l h) (deref l h').
Proof.
  intros Hle. unfold deref. destruct (h !! l) as [d|] eqn:Hl; simpl.
  - destruct (Hle l d Hl) as (d' & -> & Hd). done.
  - intros k v. simpl. done.
Qed.

(** A reconciled category stays so while the heap and the categories
    grow and the default category is left alone. *)
Lemma synced_mono cats cats' h h' c dl :
  synced cats h c dl -> cats_le cats cats' -> heap_le h h' ->
  h' !! dl = h !! dl -> synced cats' h' c dl.
Proof.
  intros (l & Hg & Hc) Hcl Hhl Hdl.
  destruct (Hcl c _ Hg) as (v' & Hg' & Hv'). rewrite (Hv' l eq_refl) in Hg'.
  exists l. split; [done|].
  intros sub e Hin. unfold deref in Hin at 1. rewrite Hdl in Hin.
  destruct (Hc sub e Hin) as (v & Hgv & Hl).
  destruct (deref_le h h' l Hhl sub v Hgv) as (v1 & Hg1 & Hv1).
  exists v1. split; [done|]. by rewrite (Hv1 Hl).
Qed.

(** The loop returns from every state; the heap and the categories grow. *)
Lemma sync_loop_mono todo : forall cats u s,
  exists cats' u' s',
    for_fold sync_category (cats, u) todo s = (Ok (cats', u'), s') /\
    heap_le (heap s) (heap s') /\ cats_le cats cats'.
Proof.
  induction todo as [|[c dl] r IH]; intros cats u s.
  - exists cats, u, s. split_and!; [done | apply heap_le_refl | apply cats_le_refl].
  - destruct (sync_category_spec cats u c dl s)
      as (cats1 & u1 & s1 & Hrun & Hh & Hc & _).
    destruct (IH cats1 u1 s1) as (cats' & u' & s' & Hrun' & Hh' & Hc').
    exists cats', u', s'. split_and!.
    + by rewrite (for_fold_cons _ _ _ _ _ _ _ Hrun).
    + by eapply heap_le_trans.
    + by eapply cats_le_trans.
Qed.

(** The first pass. [locs] are the dicts of the default; a category that
    is bound to a dict is bound to its own default dict or to a dict
    outside the default. The pass leaves the default as it is and every
    category reconciled. *)
Lemma sync_loop_pass1 (locs : list loc) todo : forall cats u s,
  NoDup (map fst todo) ->
  (forall c dl, In (c, dl) todo -> In dl locs) ->
  (forall c dl l, In (c, dl) todo -> Dict.get c cats = Some (VDict l) ->
     l = dl \/ ~ In l locs) ->
  (forall dl, In dl locs -> all_lists (deref dl (heap s)) = true) ->
  exists cats' u' s',
    for_fold sync_category (cats, u) todo s = (Ok (cats', u'), s') /\
    heap_le (heap s) (heap s') /\ cats_le cats cats' /\
    (forall dl, In dl locs -> heap s' !! dl = heap s !! dl) /\
    (forall c dl, In (c, dl) todo -> synced cats' (heap s') c dl).
Proof.
  induction todo as [|[c dl] r IH]; intros cats u s Hnd Hin Hcompat Hall.
  - exists cats, u, s.
    split_and!; [done | apply heap_le_refl | apply cats_le_refl | done | intros ? ? []].
  - destruct (sync_category_spec cats u c dl s)
      as (cats1 & u1 & s1 & Hrun & Hh & Hc & Ho & Hframe & Hsy).
    assert (In dl locs) as Hdl by (eapply Hin; by left).
    destruct (Hsy (Hall dl Hdl)) as [Hsynced Hsame].
    assert (forall dl', In dl' locs -> heap s1 !! dl' = heap s !! dl') as Hkeep.
    { intros dl' Hdl'. destruct (decide (target cats c dl = dl)) as [Ht|Ht].
      - by rewrite (Hsame Ht).
      - apply Ho. intros ->. unfold target in Ht, Hdl'.
        destruct (Dict.get c cats) as [[l|?]|] eqn:Hg; try done.
        destruct (Hcompat c dl l) as [?|?]; [by left | done | done | done]. }
    apply NoDup_cons in Hnd as [Hc_notin Hnd].
    destruct (IH cats1 u1 s1) as (cats' & u' & s' & Hrun' & Hh' & Hc' & Hkeep' & Hsy').
    + done.
    + intros c' dl' Hin'. eapply Hin. by right.
    + intros c' dl' l Hin' Hg. apply (Hcompat c' dl' l); [by right|].
      rewrite <- Hg. symmetry. apply Hframe. intros ->.
      apply Hc_notin. simpl. apply list_elem_of_In, in_map_iff.
      by exists (c, dl').
    + intros dl' Hdl'. unfold deref. rewrite (Hkeep dl' Hdl'). by apply Hall.
    + exists cats', u', s'. split_and!.
      * by rewrite (for_fold_cons _ _ _ _ _ _ _ Hrun).
      * by eapply heap_le_trans.
      * by eapply cats_le_trans.
      * intros dl' Hdl'. by rewrite Hkeep', Hkeep.
      * intros c' dl' [Heq | Hin'].
        -- injection Heq as <- <-. eapply synced_mono; eauto.
        -- by apply Hsy'.
Qed.

(** On reconciled categories an iteration of the outer loop does nothing. *)
Lemma sync_category_noop cats u c dl s :
  synced cats (heap s) c dl -> sync_category (cats, u) (c, dl) s = (Ok (cats, u), s).
Proof.
  intros (l & Hg & Hc). unfold sync_category. rewrite Hg.
  unfold bind, ret, read, gets. simpl.
  by rewrite (inner_loop_noop c l _ u s Hc).
Qed.

Lemma sync_loop_noop todo cats u s :
  (forall c dl, In (c, dl) todo -> synced cats (heap s) c dl) ->
  for_fold sync_category (cats, u) todo s = (Ok (cats, u), s).
Proof.
  induction todo as [|[c dl] r IH]; intros Hsy; [done|].
  rewrite (for_fold_cons _ _ _ _ _ _ _ (sync_category_noop cats u c dl s (Hsy c dl (or_introl eq_refl)))).
  apply IH. intros c' dl' Hin. apply Hsy. by right.
Qed.

Lemma nodupb_NoDup (l : list string) : nodupb l = true -> NoDup l.
Proof.
  induction l as [|x r IH]; simpl; [constructor|].
  intros [Hx Hr]%andb_true_iff. constructor; [|by apply IH].
  intros Hin%list_elem_of_In. apply negb_true_iff in Hx.
  assert (existsb (String.eqb x) r = true) as Hex.
  { apply existsb_exists. exists x. split; [done | apply String.eqb_refl]. }
  congruence.
Qed.

Lemma wf_default_spec self h :
  wf_default self h = true ->
  NoDup (map fst (default_categories self)) /\
  (forall c dl, In (c, dl) (default_categories self) ->
     exists d, h !! dl = Some d /\ all_lists d = true).
Proof.
  unfold wf_default. intros [Hn Hf]%andb_true_iff. split.
  - by apply nodupb_NoDup.
  - intros c dl Hin. rewrite forallb_forall in Hf. specialize (Hf _ Hin). simpl in Hf.
    destruct (h !! dl) as [d|]; [eauto | done].
Qed.

(** [json.load] returns; it allocates new dicts and leaves the old ones;
    every object of the document is a dict with its pairs. *)
Lemma load_entries_spec kvs : forall s,
  exists cats s',
    load_entries kvs s = (Ok cats, s') /\
    heap s ⊆ heap s' /\
    (forall c l, In (c, VDict l) cats -> heap s !! l = None) /\
    (forall c v, Dict.get c kvs = Some v ->
       exists v', Dict.get c cats = Some v' /\
         forall sub, v = JObj sub ->
           exists l, v' = VDict l /\ heap s' !! l = Some (Dict.of_pairs sub)).
Proof.
  induction kvs as [|[k v] r IH]; intros s.
  - exists [], s. split_and!; try done.
  - assert (exists v' s1,
      load_value v s = (Ok v', s1) /\ heap s ⊆ heap s1 /\
      (forall l, v' = VDict l -> heap s !! l = None) /\
      (forall sub, v = JObj sub ->
         exists l, v' = VDict l /\ heap s1 !! l = Some (Dict.of_pairs sub)))
      as (v' & s1 & Hrun & Hsub & Hfresh & Hobj).
    { destruct v; try (eexists _, s; split_and!; [reflexivity | done | done | done]).
      pose proof (is_fresh (dom (heap s))) as Hf. apply not_elem_of_dom in Hf.
      eexists _, _. split; [reflexivity|]. simpl. split_and!.
      - by apply insert_subseteq.
      - by intros l [= <-].
      - intros sub [= <-]. eexists. split; [done|]. apply lookup_insert_eq. }
    destruct (IH s1) as (cats & s' & Hrun' & Hsub' & Hfresh' & Hobj').
    exists ((k, v') :: cats), s'. split_and!.
    + simpl. unfold bind, ret in *. by rewrite Hrun, Hrun'.
    + by etrans.
    + intros c l [Heq | Hin].
      * injection Heq as -> ->. by apply Hfresh.
      * specialize (Hfresh' c l Hin).
        destruct (heap s !! l) as [d|] eqn:Hl; [|done].
        by rewrite (lookup_weaken _ _ _ _ Hl Hsub) in Hfresh'.
    + intros c v0. simpl. destruct (String.eqb c k).
      * intros [= <-]. exists v'. split; [done|].
        intros sub Hv. destruct (Hobj sub Hv) as (l & -> & Hl).
        exists l. split; [done|]. by eapply lookup_weaken.
      * apply Hobj'.
Qed.

(** [sync_categories] is its loop, followed by a save that leaves the
    heap alone. *)
Lemma sync_categories_run self cats s cats' u' s' :
  sync_loop self cats s = (Ok (cats', u'), s') ->
  exists s'', sync_categories self cats s = (Ok cats', s'') /\ heap s'' = heap s'.
Proof.
  intros Hrun. unfold sync_categories, bind. rewrite Hrun.
  destruct u'; eexists; (split; [reflexivity | done]).
Qed.

(** With a document whose top level is an object, [load_categories] is
    [json.load], a line on the console, and [sync_categories]. *)
Lemma load_categories_run self L s cats s0 :
  store s = Some (JObj L) ->
  json_load L s = (Ok cats, s0) ->
  load_categories self s =
    sync_categories self cats
      (set_console (console s0 ++ ["Categories loaded from JSON."]) s0).
Proof.
  intros Hst Hload. unfold load_categories, bind, gets. rewrite Hst.
  by rewrite Hload.
Qed.

(** With the default schema in place, [load_categories] of a document
    returns a schema in which every category of the default is
    reconciled, and leaves the dicts of the default as they are. *)
Lemma load_categories_synced self L s :
  wf_default self (heap s) = true ->
  store s = Some (JObj L) ->
  exists c1 s1,
    load_categories self s = (Ok c1, s1) /\
    (forall c dl, In (c, dl) (default_categories self) -> synced c1 (heap s1) c dl) /\
    (forall c dl, In (c, dl) (default_categories self) -> heap s1 !! dl = heap s !! dl).
Proof.
  intros Hwf Hst.
  destruct (wf_default_spec _ _ Hwf) as [Hnd Hdef].
  destruct (load_entries_spec (Dict.of_pairs L) s)
    as (cats0 & s0 & Hload & Hsub & Hfresh & _).
  set (s0' := set_console (console s0 ++ ["Categories loaded from JSON."]) s0).
  destruct (sync_loop_pass1 (map snd (default_categories self))
              (default_categories self) cats0 false s0')
    as (c1 & u1 & s1 & Hrun & _ & _ & Hkeep & Hsy).
  - done.
  - intros c dl Hin. apply in_map_iff. by exists (c, dl).
  - intros c dl l _ Hg. right. intros ((c' & dl') & Heq & Hin)%in_map_iff.
    simpl in Heq. subst dl'.
    destruct (Hdef c' l Hin) as (d & Hl & _).
    apply get_In in Hg. rewrite (Hfresh c l Hg) in Hl. done.
  - intros dl ((c & dl') & Heq & Hin)%in_map_iff. simpl in Heq. subst dl'.
    destruct (Hdef c dl Hin) as (d & Hl & Hall).
    unfold deref. simpl. by rewrite (lookup_weaken _ _ _ _ Hl Hsub).
  - destruct (sync_categories_run self cats0 s0' c1 u1 s1 Hrun) as (s2 & Hrun2 & Hh2).
    exists c1, s2. split_and!.
    + by rewrite (load_categories_run self L s cats0 s0 Hst Hload).
    + intros c dl Hin. rewrite Hh2. by apply Hsy.
    + intros c dl Hin. rewrite Hh2, Hkeep; [|apply in_map_iff; by exists (c, dl)].
      destruct (Hdef c dl Hin) as (d & Hl & _). simpl.
      by rewrite Hl, (lookup_weaken _ _ _ _ Hl Hsub).
Qed.

(** C2. Reconciliation is idempotent. For every document [L] that the
    schema file holds, with the default schema in place, [load_categories]
    returns a schema [c1]; reconciling [c1] again detects no update (the
    loop returns [c1] and [updated = False]) and [sync_categories] returns
    [c1] and leaves the whole state, the schema file and the console
    included, as it is: nothing is saved. *)
Theorem sync_categories_idempotent (self : FileOrganizer) (L : list (string * json)) s :
  wf_default self (heap s) = true ->
  store s = Some (JObj L) ->
  exists c1 s1,
    load_categories self s = (Ok c1, s1) /\
    sync_loop self c1 s1 = (Ok (c1, false), s1) /\
    sync_categories self c1 s1 = (Ok c1, s1).
Proof.
  intros Hwf Hst.
  destruct (load_categories_synced self L s Hwf Hst) as (c1 & s1 & Hrun & Hsy & _).
  assert (sync_loop self c1 s1 = (Ok (c1, false), s1)) as Hnoop.
  { by apply sync_loop_noop. }
  exists c1, s1. split_and!; [done | done |].
  unfold sync_categories, bind. by rewrite Hnoop.
Qed.

(** C3. Reconciliation keeps the well-shaped entries of the loaded
    schema. For every document [L] in the schema file and every state,
    [load_categories] returns a schema [c1] in which every category of [L]
    is still bound; a category that [L] binds to an object is bound in
    [c1] to a dict [d1] that has every subcategory of that object, and a
    subcategory that [L] binds to a list is bound in [d1] to that same
    list, so with every extension it had. *)
Theorem sync_categories_keeps_loaded (self : FileOrganizer) (L : list (string * json)) s :
  let s0 := set_store (Some (JObj L)) s in
  exists c1 s1,
    load_categories self s0 = (Ok c1, s1) /\
    forall c v, Dict.get c (Dict.of_pairs L) = Some v ->
      exists v1, Dict.get c c1 = Some v1 /\
        forall sub, v = JObj sub ->
          exists l d1, v1 = VDict l /\ heap s1 !! l = Some d1 /\
            forall k e, Dict.get k (Dict.of_pairs sub) = Some e ->
              exists e1, Dict.get k d1 = Some e1 /\ (is_list e = true -> e1 = e).
Proof.
  intros s0.
  destruct (load_entries_spec (Dict.of_pairs L) s0)
    as (cats0 & s1 & Hload & _ & _ & Hobj).
  set (s1' := set_console (console s1 ++ ["Categories loaded from JSON."]) s1).
  destruct (sync_loop_mono (default_categories self) cats0 false s1')
    as (c1 & u1 & s2 & Hrun & Hh & Hc).
  destruct (sync_categories_run self cats0 s1' c1 u1 s2 Hrun) as (s3 & Hrun3 & Hh3).
  exists c1, s3. split.
  - by rewrite (load_categories_run self L s0 cats0 s1 eq_refl Hload).
  - intros c v Hg. destruct (Hobj c v Hg) as (v0 & Hg0 & Hv0).
    destruct (Hc c v0 Hg0) as (v1 & Hg1 & Hv1).
    exists v1. split; [done|]. intros sub ->.
    destruct (Hv0 sub eq_refl) as (l & -> & Hl).
    destruct (Hh l _ Hl) as (d1 & Hl1 & Hd1).
    exists l, d1. rewrite Hh3. split_and!; [by apply Hv1 | done | apply Hd1].
Qed.

(** Evaluating a literal returns; it allocates one dict per category and
    leaves the old dicts. *)
Lemma alloc_literal_spec lit : forall s,
  exists D s',
    alloc_literal lit s = (Ok D, s') /\
    heap s ⊆ heap s' /\
    store s' = store s /\
    map fst D = map fst lit /\
    (forall c l, In (c, l) D -> exists d, heap s' !! l = Some d /\ In (c, d) lit).
Proof.
  induction lit as [|[c d] r IH]; intros s.
  - exists [], s. split_and!; try done.
  - pose proof (is_fresh (dom (heap s))) as Hf. apply not_elem_of_dom in Hf.
    set (l := fresh (dom (heap s))) in *.
    destruct (IH (set_heap (insert l d) s)) as (D & s' & Hrun & Hsub & Hst & Hn & Hin).
    exists ((c, l) :: D), s'. split_and!.
    + simpl. unfold bind, alloc, ret in *. fold l. by rewrite Hrun.
    + etrans; [|exact Hsub]. simpl. by apply insert_subseteq.
    + done.
    + simpl. by rewrite Hn.
    + intros c' l' [Heq | Hin'].
      * injection Heq as <- <-. exists d. split; [|by left].
        eapply lookup_weaken; [|exact Hsub]. simpl. apply lookup_insert_eq.
      * destruct (Hin c' l' Hin') as (d' & Hl & Hd'). exists d'. split; [done | by right].
Qed.

(** The default schema is in place once its literal is evaluated. *)
Lemma alloc_default_wf folder s :
  exists D s',
    alloc_literal default_literal s = (Ok D, s') /\
    store s' = store s /\
    wf_default {| folder_to_watch := folder; default_categories := D |} (heap s') = true.
Proof.
  destruct (alloc_literal_spec default_literal s) as (D & s' & Hrun & _ & Hst & Hn & Hin).
  exists D, s'. split_and!; [done | done |].
  unfold wf_default. simpl. rewrite Hn. apply andb_true_iff. split; [reflexivity|].
  apply forallb_forall. intros [c l] Hcl. simpl.
  destruct (Hin c l Hcl) as (d & -> & Hd).
  assert (forallb (fun kv => all_lists (snd kv)) default_literal = true) as Hall
    by reflexivity.
  rewrite forallb_forall in Hall. exact (Hall _ Hd).
Qed.

(** Constructing a [FileOrganizer] over any document leaves a schema on
    which [sync_categories] does nothing, from any state. *)
Lemma init_reconciled folder L s :
  store s = Some (JObj L) ->
  exists self s1,
    init folder s = (Ok self, s1) /\
    sync_categories self (categories s1) s1 = (Ok (categories s1), s1).
Proof.
  intros Hst.
  destruct (alloc_default_wf folder s) as (D & s0 & Halloc & Hst0 & Hwf).
  set (self := {| folder_to_watch := folder; default_categories := D |}) in *.
  rewrite Hst in Hst0.
  destruct (load_categories_synced self L s0 Hwf Hst0) as (c1 & s1 & Hrun & Hsy & _).
  eexists self, _. split.
  - unfold init, bind. rewrite Halloc. fold self. rewrite Hrun. reflexivity.
  - simpl. unfold sync_categories, sync_loop, bind.
    rewrite (sync_loop_noop (default_categories self) c1 false); [done|].
    intros c dl Hin. simpl. by apply Hsy.
Qed.

End SyncFacts.

(** ** The resolvers *)

Section ResolveFacts.
Import Ext.
Context {fs : Type} `{Filesystem fs}.
Implicit Types (s : state (fs:=fs)) (h : gmap loc (list (string * json))).

Lemma find_subcategory_app ext pre post :
  find_subcategory ext pre = Ok None ->
  find_subcategory ext (pre ++ post) = find_subcategory ext post.
Proof.
  induction pre as [|[k v] r IH]; simpl; [done|].
  by destruct (py_in ext v) as [[|]|].
Qed.

Lemma find_match_app h ext pre post :
  find_match h ext pre = Ok None ->
  find_match h ext (pre ++ post) = find_match h ext post.
Proof.
  induction pre as [|[c [l|n]] r IH]; simpl; try done.
  by destruct (find_subcategory ext (deref l h)) as [[?|]|].
Qed.

Lemma find_category_app item pre post :
  Kw.find_category item pre = Ok None ->
  Kw.find_category item (pre ++ post) = Kw.find_category item post.
Proof.
  induction pre as [|[c k] r IH]; simpl; [done|].
  by destruct (Kw.matches item k) as [[|]|].
Qed.

(** [organise_downloads] prints its line and goes on by what the loops
    found. *)
Lemma organise_downloads_found self f s found :
  find_match (heap s) (file_extension f) (categories s) = Ok found ->
  organise_downloads self f s =
    match found with
    | Some (c, sub) => move_to_category self c sub f
    | None => move_to_other self (file_extension f) f
    end (set_console (console s ++ [msg_processing f (file_extension f)]) s).
Proof.
  intros Hf. unfold organise_downloads, bind, print, modify. simpl.
  rewrite Hf. by destruct found as [[c sub]|].
Qed.

(** C4. First match wins, in stored order. Extension variant: when no
    category before [c] has a subcategory that lists the extension, no
    subcategory of [c] before [sub] lists it, and [sub] lists it, the
    loops stop at [(c, sub)], whatever comes later in the schema, and
    [organise_downloads] moves the file to that subcategory. Keyword
    variant: when no category before [c] has a keyword in the name of the
    item and [c] has one, the loop stops at [c], whatever comes later, and
    [organize_item] moves the item to the folder of [c]. Nothing in either
    loop compares names. *)
Theorem first_match_wins :
  (forall (self : FileOrganizer) s file_path pre c l post spre sub extensions spost,
     let ext := file_extension file_path in
     categories s = pre ++ (c, VDict l) :: post ->
     find_match (heap s) ext pre = Ok None ->
     deref l (heap s) = spre ++ (sub, extensions) :: spost ->
     find_subcategory ext spre = Ok None ->
     py_in ext extensions = Ok true ->
     find_match (heap s) ext (categories s) = Ok (Some (c, sub)) /\
     organise_downloads self file_path s =
       move_to_category self c sub file_path
         (set_console (console s ++ [msg_processing file_path ext]) s))
  /\
  (forall cwd input source_folder item (st : Kw.state (fs:=fs)) pre c keywords post,
     Kw.mapping st = JObj (pre ++ (c, keywords) :: post) ->
     Kw.find_category item pre = Ok None ->
     Kw.matches item keywords = Ok true ->
     fs_isdir (PyStr.join source_folder [item]) (Kw.disk st)
       && Dict.mem item (pre ++ (c, keywords) :: post) = false ->
     Kw.find_category item (pre ++ (c, keywords) :: post) = Ok (Some c) /\
     Kw.organize_item cwd input source_folder item st =
       (Kw.move_item cwd (PyStr.join source_folder [item])
          (PyStr.join source_folder [c]);;
        Kw.print (Kw.msg_moved_to item c)) st).
Proof.
  split.
  - intros self s file_path pre c l post spre sub extensions spost ext
      Hcats Hpre Hd Hspre Hin.
    assert (find_match (heap s) ext (categories s) = Ok (Some (c, sub))) as Hfound.
    { rewrite Hcats, (find_match_app _ _ _ _ Hpre). simpl.
      rewrite Hd, (find_subcategory_app _ _ _ Hspre). simpl. by rewrite Hin. }
    split; [done|]. by rewrite (organise_downloads_found self file_path s _ Hfound).
  - intros cwd input source_folder item st pre c keywords post Hm Hpre Hk Hdir.
    assert (Kw.find_category item (pre ++ (c, keywords) :: post) = Ok (Some c)) as Hfound.
    { rewrite (find_category_app _ _ _ Hpre). simpl. by rewrite Hk. }
    split; [done|].
    unfold Kw.organize_item, Kw.is_category_folder, bind, gets, ret, lift.
    cbv beta iota.
    destruct (fs_isdir _ (Kw.disk st)); simpl in Hdir;
      repeat (cbv beta iota; first [rewrite Hm | rewrite Hdir | rewrite Hfound]);
      reflexivity.
Qed.

End ResolveFacts.

(** ** [organise_downloads] *)

Section OrganiseFacts.
Import Ext Inv.
Context {fs : Type} `{Filesystem fs}.
Implicit Types (s : state (fs:=fs)) (h : gmap loc (list (string * json))).

(** The guarded move returns, whatever the move primitive does. *)
Lemma try_move_spec src dst s :
  try_move src dst s =
    (Ok tt,
     set_console
       (console s ++ [match snd (fs_move src dst (disk s)) with
                      | None => msg_moved src dst
                      | Some e => msg_error e
                      end])
       (set_disk (fst (fs_move src dst (disk s))) s)).
Proof.
  unfold try_move, try_except, bind, fs_call, print, modify.
  by destruct (fs_move src dst (disk s)) as [d [e|]].
Qed.

Lemma find_match_None h ext cats :
  find_match h ext cats = Ok None <-> Forall (unmatched_entry h ext) cats.
Proof.
  induction cats as [|[c [l|n]] r IH]; simpl.
  - split; [constructor | done].
  - destruct (find_subcategory ext (deref l h)) as [[sub|]|] eqn:Hf.
    + split; [done|]. intros Hall. inversion Hall as [|? ? (l' & Hl' & Hf') _]; subst.
      simpl in Hl'. injection Hl' as <-. congruence.
    + rewrite IH. split.
      * intros Hr. constructor; [by exists l | done].
      * intros Hall. by inversion Hall.
    + split; [done|]. intros Hall. inversion Hall as [|? ? (l' & Hl' & Hf') _]; subst.
      simpl in Hl'. injection Hl' as <-. congruence.
  - split; [done|]. intros Hall. inversion Hall as [|? ? (l' & Hl' & _) _]; subst.
    done.
Qed.

(** Binding a name to a value that does not hold [ext] keeps [ext]
    unmatched. *)
Lemma find_subcategory_set ext d k v :
  find_subcategory ext d = Ok None -> py_in ext v = Ok false ->
  find_subcategory ext (Dict.set k v d) = Ok None.
Proof.
  intros Hd Hv. induction d as [|[k' v'] r IH]; simpl in *.
  - by rewrite Hv.
  - destruct (py_in ext v') as [[|]|] eqn:Hv'; try done.
    destruct (String.eqb k k'); simpl.
    + by rewrite Hv.
    + rewrite Hv'. by apply IH.
Qed.

(** After a search that found nothing, [learn] returns: ["Other"] is
    bound to a dict that has the extension as a name; the heap changes at
    most by that name, bound to an empty list, and the categories at most
    by ["Other"], bound to a new dict. *)
Lemma learn_spec ext s :
  find_match (heap s) ext (categories s) = Ok None ->
  exists s1 l,
    learn ext s = (Ok tt, s1) /\
    store s1 = store s /\ disk s1 = disk s /\ console s1 = console s /\
    Dict.get "Other" (categories s1) = Some (VDict l) /\
    Dict.mem ext (deref l (heap s1)) = true /\
    (forall lc, deref lc (heap s1) = deref lc (heap s)
                \/ deref lc (heap s1) = Dict.set ext (JArr []) (deref lc (heap s))) /\
    (categories s1 = categories s
     \/ (Dict.get "Other" (categories s) = None
         /\ categories s1 = categories s ++ [("Other", VDict l)]
         /\ deref l (heap s) = [])) /\
    (Dict.mem ext (deref l (heap s)) = false ->
       Dict.get ext (deref l (heap s1)) = Some (JArr [])).
Proof.
  intros Hnone. unfold learn, bind, gets, ret, modify, read, write, alloc. simpl.
  destruct (Dict.mem "Other" (categories s)) eqn:Hm; simpl.
  - apply mem_true in Hm as [v Hg]. rewrite Hg.
    apply find_match_None in Hnone. rewrite Forall_forall in Hnone.
    destruct (Hnone _ (proj2 (list_elem_of_In _ _) (get_In _ _ _ Hg))) as (l & Hv & _).
    simpl in Hv. subst v.
    destruct (Dict.mem ext (deref l (heap s))) eqn:He; simpl.
    + exists s, l. split_and!; try done; [by left | by left | congruence].
    + eexists _, l. split; [reflexivity|]. simpl. split_and!; try done.
      * by rewrite deref_insert_eq, (proj2 (mem_true _ _)); [|rewrite get_set_eq; eauto].
      * intros lc. destruct (decide (l = lc)) as [<-|Hne].
        -- right. apply deref_insert_eq.
        -- left. by apply deref_insert_ne.
      * by left.
      * intros _. by rewrite deref_insert_eq, get_set_eq.
  - apply mem_false in Hm.
    pose proof (is_fresh (dom (heap s))) as Hf. apply not_elem_of_dom in Hf.
    set (l := fresh (dom (heap s))) in *.
    assert (deref l (heap s) = []) as Hd by (unfold deref; by rewrite Hf).
    rewrite get_set_eq. simpl. rewrite deref_insert_eq. simpl.
    eexists _, l. split; [reflexivity|]. simpl. split_and!; try done.
    + apply get_set_eq.
    + rewrite deref_insert_eq. unfold Dict.mem. simpl. by rewrite String.eqb_refl.
    + intros lc. rewrite insert_insert_eq. destruct (decide (l = lc)) as [<-|Hne].
      * right. by rewrite deref_insert_eq, Hd.
      * left. by apply deref_insert_ne.
    + right. split_and!; [done | by apply set_absent | done].
    + intros _. rewrite deref_insert_eq. simpl. by rewrite String.eqb_refl.
Qed.

(** What [learn] changes keeps every unmatched extension unmatched. *)
Lemma unmatched_preserved ext ext' h h1 cats cats1 l :
  (forall lc, deref lc h1 = deref lc h
              \/ deref lc h1 = Dict.set ext (JArr []) (deref lc h)) ->
  (cats1 = cats \/ (Dict.get "Other" cats = None
                    /\ cats1 = cats ++ [("Other", VDict l)] /\ deref l h = [])) ->
  find_match h ext' cats = Ok None -> find_match h1 ext' cats1 = Ok None.
Proof.
  intros Hheap Hcats Hnone.
  assert (forall lc, find_subcategory ext' (deref lc h) = Ok None ->
                     find_subcategory ext' (deref lc h1) = Ok None) as Hsub.
  { intros lc Hf. destruct (Hheap lc) as [-> | ->]; [done|].
    by apply find_subcategory_set. }
  assert (forall kv, unmatched_entry h ext' kv -> unmatched_entry h1 ext' kv) as Hentry.
  { intros kv (lc & Hv & Hf). exists lc. split; [done | by apply Hsub]. }
  apply find_match_None. apply find_match_None in Hnone.
  destruct Hcats as [-> | (_ & -> & Hd)].
  - eapply Forall_impl; [exact Hnone | exact Hentry].
  - apply Forall_app. split.
    + eapply Forall_impl; [exact Hnone | exact Hentry].
    + constructor; [|constructor]. exists l. split; [done|].
      apply Hsub. by rewrite Hd.
Qed.

(** The path of [move_to_other] once [learn] has returned. *)
Lemma move_to_other_run self ext f s s1 :
  learn ext (set_console (console s ++ [msg_new_type ext]) s) = (Ok tt, s1) ->
  let s2 := set_console (console s1 ++ ["Categories saved to JSON."])
              (set_store (Some (dump (heap s1) (categories s1))) s1) in
  let other := PyStr.join (folder_to_watch self) ["Other"] in
  move_to_other self ext f s =
    if fs_exists other (disk s1)
    then try_move f (PyStr.join other [PyStr.basename f]) s2
    else (Raise (match snd (fs_makedirs false other (disk s1)) with
                 | None => UnboundLocalError
                 | Some e => e
                 end),
          set_disk (fst (fs_makedirs false other (disk s1))) s2).
Proof.
  intros Hlearn s2 other.
  unfold move_to_other, bind, print, modify, gets, save_categories, ret, raise, fs_call.
  cbv beta iota. rewrite Hlearn. cbv beta iota. simpl.
  fold other. destruct (fs_exists other (disk s1)); simpl; [done|].
  by destruct (fs_makedirs false other (disk s1)) as [d [e|]].
Qed.

(** [move_to_category] leaves the schema alone. *)
Lemma move_to_category_frame self c sub f s :
  heap (snd (move_to_category self c sub f s)) = heap s /\
  categories (snd (move_to_category self c sub f s)) = categories s.
Proof.
  unfold move_to_category, bind, gets, ret, fs_call. cbv beta iota.
  destruct (fs_exists _ (disk s)).
  - by rewrite try_move_spec.
  - destruct (fs_makedirs _ _ (disk s)) as [d [e|]]; [done|].
    by rewrite try_move_spec.
Qed.

(** Processing a file keeps every unmatched extension unmatched. *)
Lemma organise_downloads_keeps_unmatched self f s ext :
  find_match (heap s) ext (categories s) = Ok None ->
  find_match (heap (snd (organise_downloads self f s))) ext
             (categories (snd (organise_downloads self f s))) = Ok None.
Proof.
  intros Hnone.
  destruct (find_match (heap s) (file_extension f) (categories s)) as [found|e] eqn:Hf.
  - rewrite (organise_downloads_found self f s found Hf).
    set (sp := set_console (console s ++ [msg_processing f (file_extension f)]) s).
    destruct found as [[c sub]|].
    + destruct (move_to_category_frame self c sub f sp) as [-> ->]. done.
    + set (sq := set_console (console sp ++ [msg_new_type (file_extension f)]) sp).
      destruct (learn_spec (file_extension f) sq Hf)
        as (s1 & l & Hlearn & _ & _ & _ & _ & _ & Hheap & Hcats & _).
      rewrite (move_to_other_run self _ f sp s1 Hlearn).
      assert (find_match (heap s1) ext (categories s1) = Ok None) as H1.
      { by eapply unmatched_preserved. }
      destruct (fs_exists _ (disk s1)); [by rewrite try_move_spec | done].
  - unfold organise_downloads, bind, print, modify. simpl. by rewrite Hf.
Qed.

Lemma pass_keeps_unmatched self files : forall s ext,
  find_match (heap s) ext (categories s) = Ok None ->
  find_match (heap (snd (for_each (organise_downloads self) files s))) ext
             (categories (snd (for_each (organise_downloads self) files s))) = Ok None.
Proof.
  induction files as [|f r IH]; intros s ext Hnone; [done|].
  pose proof (organise_downloads_keeps_unmatched self f s ext Hnone) as H1.
  unfold for_each in *. simpl. unfold bind.
  destruct (organise_downloads self f s) as [[[]|e] s1]; simpl in *.
  - by apply IH.
  - done.
Qed.


(** When it does not get that far, [organise_downloads] raises, and
    [makedirs] is the last thing done to the filesystem. *)
Lemma organise_downloads_stops self f s found :
  find_match (heap s) (file_extension f) (categories s) = Ok found ->
  ensure_folder self found (disk s) = None ->
  exists e s1,
    organise_downloads self f s = (Raise e, s1) /\
    disk s1 = fst (fs_makedirs false (destination_folder self found) (disk s)).
Proof.
  intros Hf Hens. unfold ensure_folder in Hens.
  rewrite (organise_downloads_found self f s found Hf).
  set (sp := set_console (console s ++ [msg_processing f (file_extension f)]) s).
  destruct found as [[c sub]|]; cbn [destination_folder] in Hens |- *.
  - unfold move_to_category, bind, gets, ret, fs_call. cbv beta iota.
    change (disk sp) with (disk s).
    destruct (fs_exists _ (disk s)); [done|].
    cbv beta iota. change (disk sp) with (disk s).
    destruct (fs_makedirs false _ (disk s)) as [d1 [e|]]; simpl in Hens; [|done].
    by eexists _, _.
  - set (sq := set_console (console sp ++ [msg_new_type (file_extension f)]) sp).
    destruct (learn_spec (file_extension f) sq Hf)
      as (s1 & l & Hlearn & _ & Hdisk & _).
    rewrite (move_to_other_run self _ f sp s1 Hlearn).
    rewrite Hdisk. change (disk sq) with (disk s).
    destruct (fs_exists _ (disk s)); [done|].
    by eexists _, _.
Qed.

(** A file that no subcategory lists takes the path of lines 241-265:
    its extension is a name of the ["Other"] dict, the schema is saved,
    and with the ["Other"] folder in place the file is handed to the move
    primitive. *)
Lemma organise_downloads_unmatched self f s :
  let ext := file_extension f in
  let other := PyStr.join (folder_to_watch self) ["Other"] in
  let r := organise_downloads self f s in
  find_match (heap s) ext (categories s) = Ok None ->
  r = move_to_other self ext f (set_console (console s ++ [msg_processing f ext]) s) /\
  (exists l, Dict.get "Other" (categories (snd r)) = Some (VDict l) /\
             Dict.mem ext (deref l (heap (snd r))) = true /\
             (Dict.mem ext (deref l (heap s)) = false ->
                Dict.get ext (deref l (heap (snd r))) = Some (JArr []))) /\
  store (snd r) = Some (dump (heap (snd r)) (categories (snd r))) /\
  In (msg_new_type ext) (console (snd r)) /\
  (fs_exists other (disk s) = true ->
     fst r = Ok tt /\
     disk (snd r) = fst (fs_move f (PyStr.join other [PyStr.basename f]) (disk s))).
Proof.
  intros ext other r Hf. subst r.
  rewrite (organise_downloads_found self f s None Hf). fold ext.
  set (sp := set_console (console s ++ [msg_processing f ext]) s).
  split; [done|].
  set (sq := set_console (console sp ++ [msg_new_type ext]) sp).
  destruct (learn_spec ext sq Hf)
    as (s1 & l & Hlearn & _ & Hdisk & Hcons & Hother & Hmem & _ & _ & Hnew).
  rewrite (move_to_other_run self ext f sp s1 Hlearn). fold other.
  assert (In (msg_new_type ext) (console s1)) as Hin.
  { rewrite Hcons. simpl. apply in_or_app. right. by left. }
  rewrite Hdisk. change (disk sq) with (disk s).
  destruct (fs_exists other (disk s)).
  - rewrite try_move_spec. simpl. split_and!.
    + by exists l.
    + done.
    + apply in_or_app. left. apply in_or_app. by left.
    + intros _. by rewrite Hdisk.
  - simpl. split_and!.
    + by exists l.
    + done.
    + apply in_or_app. by left.
    + done.
Qed.

(** C10. An extension learned into ["Other"] stays unmatched. Let a file
    [f1] match nothing in the schema. After [organise_downloads] has
    handled it, ["Other"] is bound to a dict that has the extension as a
    name, bound to an empty list when the name is new; the search for the
    extension still finds nothing, and finds nothing after any further
    files have been processed. Every later file [f2] with that extension
    takes the path of an unmatched file again: the new-type line is
    printed, the schema is saved again, and, with the ["Other"] folder in
    place, the file is handed to the move primitive with a destination in
    that folder. *)
Theorem learned_extension_stays_unmatched (self : FileOrganizer) f1 between f2 s :
  file_extension f2 = file_extension f1 ->
  find_match (heap s) (file_extension f1) (categories s) = Ok None ->
  let ext := file_extension f1 in
  let other := PyStr.join (folder_to_watch self) ["Other"] in
  let s1 := snd (organise_downloads self f1 s) in
  let s2 := snd (for_each (organise_downloads self) between s1) in
  let r := organise_downloads self f2 s2 in
  (exists l, Dict.get "Other" (categories s1) = Some (VDict l) /\
             Dict.mem ext (deref l (heap s1)) = true /\
             (Dict.mem ext (deref l (heap s)) = false ->
                Dict.get ext (deref l (heap s1)) = Some (JArr []))) /\
  find_match (heap s1) ext (categories s1) = Ok None /\
  find_match (heap s2) ext (categories s2) = Ok None /\
  r = move_to_other self ext f2 (set_console (console s2 ++ [msg_processing f2 ext]) s2) /\
  store (snd r) = Some (dump (heap (snd r)) (categories (snd r))) /\
  In (msg_new_type ext) (console (snd r)) /\
  (fs_exists other (disk s2) = true ->
     fst r = Ok tt /\
     disk (snd r) = fst (fs_move f2 (PyStr.join other [PyStr.basename f2]) (disk s2))).
Proof.
  intros Hext Hf ext other s1 s2 r.
  destruct (organise_downloads_unmatched self f1 s Hf) as (_ & Hrec & _).
  assert (find_match (heap s1) ext (categories s1) = Ok None) as H1.
  { by apply organise_downloads_keeps_unmatched. }
  assert (find_match (heap s2) ext (categories s2) = Ok None) as H2.
  { by apply pass_keeps_unmatched. }
  split; [exact Hrec|]. split; [exact H1|]. split; [exact H2|].
  subst ext. rewrite <- Hext in H2 |- *.
  destruct (organise_downloads_unmatched self f2 s2 H2) as (Hr & _ & Hst & Hin & Hmv).
  done.
Qed.




End OrganiseFacts.

(** ** The programs on concrete inputs *)

Section Runs.
Import Ext Run.

(** C1 fails on the schema file [{"Executables": {"Installers": [".exe"]}}].
    The default lists [.exe] and [.msi] under Executables / Installers;
    after [FileOrganizer("d", json_file)] has loaded and reconciled the
    file, the list under Executables / Installers is still [[".exe"]]:
    it is a list, so the loop leaves it as it is, and [.msi] is not in
    it. *)
Theorem sync_keeps_shorter_list :
  let r := with_organizer (fun self => ret self)
             (fresh_state (Some (JObj short_doc)) downloads) in
  fst r = Ok self0 /\
  match default_dict self0 (snd r) "Executables" with
  | Some d => Dict.get "Installers" d
  | None => None
  end = Some (exts [".exe"; ".msi"]) /\
  extensions_of (snd r) "Executables" "Installers" = Some (exts [".exe"]) /\
  py_in ".msi" (exts [".exe"]) = Ok false.
Proof. vm_compute. done. Qed.

(** C8 fails when the schema file is absent and a file with an unknown
    extension is processed. [load_categories] binds the categories to the
    dicts of the default ([dict.copy()] is shallow); [organise_downloads]
    then records [.xyz] in the dict bound to ["Other"], which is the dict
    of the default. The same happens with a schema file that has no
    ["Other"]: [sync_categories] binds it to the dict of the default. *)
Theorem default_other_is_mutated :
  let before := organized None downloads_other in
  let r := with_organizer (fun self => organise_downloads self "d/a.xyz")
             (fresh_state None downloads_other) in
  let r' := with_organizer (fun self => organise_downloads self "d/a.xyz")
              (fresh_state (Some (JObj short_doc)) downloads_other) in
  default_dict self0 before "Other" = Some [] /\
  fst r = Ok tt /\
  default_dict self0 (snd r) "Other" = Some [(".xyz", JArr [])] /\
  fst r' = Ok tt /\
  default_dict self0 (snd r') "Other" = Some [(".xyz", JArr [])].
Proof. vm_compute. done. Qed.

(** C9 fails on the first unknown file of a folder that has no ["Other"]
    folder yet. The extension is recorded and the schema is saved, the
    folder is created, and then line 256 reads [category_path], which is
    unbound on this path: [organise_downloads] raises, the file is not
    moved (the move primitive is never called), and the pass ends there,
    with the other files where they were. *)
Theorem unmatched_file_without_other_folder :
  let r := with_organizer (fun self => organise_downloads self "d/a.xyz")
             (fresh_state None downloads) in
  let p := with_organizer organize_files_in_directory (fresh_state None downloads) in
  fst r = Raise UnboundLocalError /\
  extensions_of (snd r) "Other" ".xyz" = Some (JArr []) /\
  store (snd r) = Some (dump (heap (snd r)) (categories (snd r))) /\
  fs_isdir "d/Other" (disk (snd r)) = true /\
  fs_isfile "d/a.xyz" (disk (snd r)) = true /\
  fs_exists "d/Other/a.xyz" (disk (snd r)) = false /\
  Toy.moves (disk (snd r)) = [] /\
  fst p = Raise UnboundLocalError /\
  Toy.files (disk (snd p)) = ["d/a.xyz"; "d/b.exe"; "d/c.xyz"].
Proof. vm_compute. done. Qed.



(** [sync_categories_idempotent] on the schema file that lists one
    installer extension. *)
Lemma sync_categories_idempotent_witness :
  exists c1 s1,
    load_categories self0 (booted (Some (JObj short_doc)) downloads) = (Ok c1, s1) /\
    sync_loop self0 c1 s1 = (Ok (c1, false), s1) /\
    sync_categories self0 c1 s1 = (Ok c1, s1).
Proof.
  apply (sync_categories_idempotent self0 short_doc); vm_compute; reflexivity.
Defined.

(** [first_match_wins] on a [.csv] file and on an item named
    [Report 2024.txt]. *)
Lemma first_match_wins_witness :
  (let s := organized (Some (JObj two_hits_doc)) downloads in
   find_match (heap s) (file_extension "d/t.csv") (categories s)
     = Ok (Some ("Zebra", "Tables")) /\
   organise_downloads self0 "d/t.csv" s =
     move_to_category self0 "Zebra" "Tables" "d/t.csv"
       (set_console (console s ++ [msg_processing "d/t.csv" (file_extension "d/t.csv")]) s))
  /\
  (let st := Kw.State (JObj two_hits_mapping) None documents [] in
   Kw.find_category "Report 2024.txt" two_hits_mapping = Ok (Some "Zulu") /\
   Kw.organize_item "/home/u" just_enter "docs" "Report 2024.txt" st =
     (Kw.move_item "/home/u" (PyStr.join "docs" ["Report 2024.txt"])
        (PyStr.join "docs" ["Zulu"]);;
      Kw.print (Kw.msg_moved_to "Report 2024.txt" "Zulu")) st).
Proof.
  split.
  - intros s.
    apply (proj1 first_match_wins self0 s "d/t.csv"
             [("Notes", VDict 8)] "Zebra" 9 (skipn 2 (categories s))
             [("Pictures", exts [".png"])] "Tables" (exts [".csv"])
             [("More", exts [".csv"])]); vm_compute; reflexivity.
  - intros st.
    apply (proj2 first_match_wins "/home/u" just_enter "docs" "Report 2024.txt" st
             [("Music", Kw.kws ["mp3"])] "Zulu" (Kw.kws ["draft"; "report"])
             [("Alpha", Kw.kws ["Report"; "notes"])]); vm_compute; reflexivity.
Defined.





(** [learned_extension_stays_unmatched] on two [.xyz] files with an
    installer processed in between. *)
Lemma learned_extension_stays_unmatched_witness :
  let s := organized None downloads_other in
  let f1 := "d/a.xyz" in
  let f2 := "d/c.xyz" in
  let ext := file_extension f1 in
  let other := PyStr.join (folder_to_watch self0) ["Other"] in
  let s1 := snd (organise_downloads self0 f1 s) in
  let s2 := snd (for_each (organise_downloads self0) ["d/b.exe"] s1) in
  let r := organise_downloads self0 f2 s2 in
  (exists l, Dict.get "Other" (categories s1) = Some (VDict l) /\
             Dict.mem ext (deref l (heap s1)) = true /\
             (Dict.mem ext (deref l (heap s)) = false ->
                Dict.get ext (deref l (heap s1)) = Some (JArr []))) /\
  find_match (heap s1) ext (categories s1) = Ok None /\
  find_match (heap s2) ext (categories s2) = Ok None /\
  r = move_to_other self0 ext f2 (set_console (console s2 ++ [msg_processing f2 ext]) s2) /\
  store (snd r) = Some (dump (heap (snd r)) (categories (snd r))) /\
  In (msg_new_type ext) (console (snd r)) /\
  (fs_exists other (disk s2) = true ->
     fst r = Ok tt /\
     disk (snd r) = fst (fs_move f2 (PyStr.join other [PyStr.basename f2]) (disk s2))).
Proof.
  intros s f1 f2.
  apply (learned_extension_stays_unmatched self0 f1 ["d/b.exe"] f2 s);
    vm_compute; reflexivity.
Defined.

End Runs.

(** ** More about the extension variant *)

Section ExtFacts.
Import Ext Inv.
Context {fs : Type} `{Filesystem fs}.
Implicit Types (s : state (fs:=fs)) (h : gmap loc (list (string * json))).

Lemma find_subcategory_sound ext items sub :
  find_subcategory ext items = Ok (Some sub) ->
  exists e, In (sub, e) items /\ py_in ext e = Ok true.
Proof.
  induction items as [|[k v] r IH]; simpl; [done|].
  destruct (py_in ext v) as [[|]|] eqn:Hv; try done.
  - intros [= <-]. exists v. split; [by left | done].
  - intros Hr. destruct (IH Hr) as (e & Hin & He). exists e. split; [by right | done].
Qed.

(** What the search returns is an entry of the schema: a category bound
    to a dict, and a subcategory of that dict whose value holds the
    extension. *)
Theorem find_match_sound h ext cats c sub :
  find_match h ext cats = Ok (Some (c, sub)) ->
  exists l e, In (c, VDict l) cats /\ In (sub, e) (deref l h) /\ py_in ext e = Ok true.
Proof.
  induction cats as [|[c' [l|n]] r IH]; simpl; try done.
  destruct (find_subcategory ext (deref l h)) as [[sub'|]|] eqn:Hf; try done.
  - intros [= <- <-]. destruct (find_subcategory_sound _ _ _ Hf) as (e & Hin & He).
    exists l, e. split_and!; [by left | done | done].
  - intros Hr. destruct (IH Hr) as (l' & e & Hin & Hs & He).
    exists l', e. split_and!; [by right | done | done].
Qed.

Lemma lower_ascii_idem c : PyStr.lower_ascii (PyStr.lower_ascii c) = PyStr.lower_ascii c.
Proof. by destruct c as [[] [] [] [] [] [] [] []]. Qed.

Lemma lower_idem x : PyStr.lower (PyStr.lower x) = PyStr.lower x.
Proof. induction x as [|c r IH]; simpl; [done|]. by rewrite lower_ascii_idem, IH. Qed.

(** The extension of the file is lower-cased, the entries of the schema
    are not: a list whose entries all have a capital letter holds the
    extension of no file. *)
Theorem capital_extensions_never_match f es :
  all_have_capitals es = true -> py_in (file_extension f) (exts es) = Ok false.
Proof.
  intros Hall. unfold exts. simpl. f_equal.
  induction es as [|e r IH]; simpl in *; [done|].
  apply andb_true_iff in Hall as [He Hr]. rewrite (IH Hr), orb_false_r.
  destruct (String.eqb (file_extension f) e) eqn:E; [|done].
  apply String.eqb_eq in E. subst e. unfold file_extension in He.
  by rewrite lower_idem, String.eqb_refl in He.
Qed.

(** A category bound to something that is not a dict, met before any
    hit, makes [organise_downloads] raise [AttributeError]: only its
    first line is printed, and nothing is moved or saved. *)
Theorem ill_shaped_category_raises (self : FileOrganizer) f s pre c n post :
  categories s = pre ++ (c, VOther n) :: post ->
  find_match (heap s) (file_extension f) pre = Ok None ->
  organise_downloads self f s =
    (Raise AttributeError,
     set_console (console s ++ [msg_processing f (file_extension f)]) s).
Proof.
  intros Hcats Hpre. unfold organise_downloads, bind, print, modify. simpl.
  by rewrite Hcats, (find_match_app _ _ _ _ Hpre).
Qed.

(** A file that matches an entry leaves the schema in memory as it is:
    [self.categories] and every dict of the schema, whatever [makedirs]
    and the move primitive do. *)
Theorem matched_file_keeps_schema (self : FileOrganizer) f s c sub :
  find_match (heap s) (file_extension f) (categories s) = Ok (Some (c, sub)) ->
  let s1 := snd (organise_downloads self f s) in
  heap s1 = heap s /\ categories s1 = categories s.
Proof.
  intros Hf s1. subst s1. rewrite (organise_downloads_found self f s _ Hf).
  set (sp := set_console _ s).
  by destruct (move_to_category_frame self c sub f sp) as [-> ->].
Qed.

(** An unmatched file in a folder that has no ["Other"] folder makes
    [organise_downloads] raise, for every schema and filesystem: the
    extension is recorded (it is a name of the dict bound to ["Other"],
    bound to an empty list when the name is new) and the schema saved,
    [makedirs] is the last thing done to the filesystem, and the move
    primitive is not called. When [makedirs] succeeds the exception is
    [UnboundLocalError]. *)
Theorem unmatched_without_other_folder (self : FileOrganizer) f s :
  let other := PyStr.join (folder_to_watch self) ["Other"] in
  find_match (heap s) (file_extension f) (categories s) = Ok None ->
  fs_exists other (disk s) = false ->
  exists e s1,
    organise_downloads self f s = (Raise e, s1) /\
    (exists l, Dict.get "Other" (categories s1) = Some (VDict l) /\
               Dict.mem (file_extension f) (deref l (heap s1)) = true /\
               (Dict.mem (file_extension f) (deref l (heap s)) = false ->
                  Dict.get (file_extension f) (deref l (heap s1)) = Some (JArr []))) /\
    store s1 = Some (dump (heap s1) (categories s1)) /\
    disk s1 = fst (fs_makedirs false other (disk s)) /\
    (snd (fs_makedirs false other (disk s)) = None -> e = UnboundLocalError).
Proof.
  intros other Hf Hex.
  rewrite (organise_downloads_found self f s None Hf).
  set (sp := set_console _ s).
  set (sq := set_console (console sp ++ [msg_new_type (file_extension f)]) sp).
  destruct (learn_spec (file_extension f) sq Hf)
    as (s1 & l & Hlearn & _ & Hdisk & _ & Hother & Hmem & _ & _ & Hnew).
  rewrite (move_to_other_run self _ f sp s1 Hlearn). fold other.
  rewrite Hdisk. change (disk sq) with (disk s). rewrite Hex.
  eexists _, _. split; [reflexivity|]. simpl. split_and!; [by exists l | done | done |].
  by intros ->.
Qed.

(** Recording an extension a second time changes nothing: an entry of
    ["Other"] is never rebound. *)
Theorem learn_twice ext s :
  find_match (heap s) ext (categories s) = Ok None ->
  exists s1, learn ext s = (Ok tt, s1) /\ learn ext s1 = (Ok tt, s1).
Proof.
  intros Hf.
  destruct (learn_spec ext s Hf) as (s1 & l & Hlearn & _ & _ & _ & Hother & Hmem & _).
  exists s1. split; [done|].
  assert (Dict.mem "Other" (categories s1) = true) as Hm.
  { apply mem_true. eauto. }
  unfold learn, bind, gets, ret, read. simpl.
  rewrite Hm. simpl. rewrite Hother. simpl. by rewrite Hmem.
Qed.

(** After a search that found nothing, [learn] leaves the state as it is
    or binds one new name in one dict, and at most binds ["Other"]. *)
Lemma learn_heap ext s :
  find_match (heap s) ext (categories s) = Ok None ->
  exists s1,
    learn ext s = (Ok tt, s1) /\
    (s1 = s
     \/ exists l,
          heap s1 = <[l := Dict.set ext (JArr []) (deref l (heap s))]> (heap s) /\
          Dict.get ext (deref l (heap s)) = None /\
          (categories s1 = categories s
           \/ (Dict.get "Other" (categories s) = None
               /\ categories s1 = Dict.set "Other" (VDict l) (categories s)))).
Proof.
  intros Hnone. unfold learn, bind, gets, ret, modify, read, write, alloc. simpl.
  destruct (Dict.mem "Other" (categories s)) eqn:Hm; simpl.
  - apply mem_true in Hm as [v Hg]. rewrite Hg.
    apply find_match_None in Hnone. rewrite Forall_forall in Hnone.
    destruct (Hnone _ (proj2 (list_elem_of_In _ _) (get_In _ _ _ Hg))) as (l & Hv & _).
    simpl in Hv. subst v.
    destruct (Dict.mem ext (deref l (heap s))) eqn:He; simpl.
    + exists s. split; [done|]. left. by destruct s.
    + eexists. split; [reflexivity|]. right. exists l. simpl.
      split_and!; [done | by apply mem_false | by left].
  - apply mem_false in Hm.
    pose proof (is_fresh (dom (heap s))) as Hf. apply not_elem_of_dom in Hf.
    set (l := fresh (dom (heap s))) in *.
    assert (deref l (heap s) = []) as Hd by (unfold deref; by rewrite Hf).
    rewrite get_set_eq. simpl. rewrite deref_insert_eq. simpl.
    eexists. split; [reflexivity|]. right. exists l. simpl.
    rewrite Hd, insert_insert_eq. split_and!; [done | done | by right].
Qed.

(** Once [learn] has returned, the rest of [move_to_other] leaves the
    schema alone. *)
Lemma move_to_other_frame self ext f s s1 :
  learn ext (set_console (console s ++ [msg_new_type ext]) s) = (Ok tt, s1) ->
  heap (snd (move_to_other self ext f s)) = heap s1 /\
  categories (snd (move_to_other self ext f s)) = categories s1.
Proof.
  intros Hlearn. rewrite (move_to_other_run self ext f s s1 Hlearn).
  destruct (fs_exists _ (disk s1)); [by rewrite try_move_spec | done].
Qed.

(** Processing a file never removes or rebinds anything in the schema:
    every category stays bound to what it was bound to, and every name
    of every dict to the value it had. *)
Theorem organise_downloads_only_adds (self : FileOrganizer) f s :
  let s1 := snd (organise_downloads self f s) in
  (forall c v, Dict.get c (categories s) = Some v -> Dict.get c (categories s1) = Some v)
  /\
  (forall l k v, Dict.get k (deref l (heap s)) = Some v ->
                 Dict.get k (deref l (heap s1)) = Some v).
Proof.
  intros s1. subst s1.
  destruct (find_match (heap s) (file_extension f) (categories s)) as [found|e] eqn:Hf.
  - rewrite (organise_downloads_found self f s found Hf).
    set (sp := set_console _ s).
    destruct found as [[c sub]|].
    + by destruct (move_to_category_frame self c sub f sp) as [-> ->].
    + set (sq := set_console (console sp ++ [msg_new_type (file_extension f)]) sp).
      destruct (learn_heap (file_extension f) sq Hf) as (s1 & Hlearn & Hcase).
      destruct (move_to_other_frame self _ f sp s1 Hlearn) as [-> ->].
      destruct Hcase as [-> | (l & Hh & Hnew & Hcats)]; [done|].
      split.
      * intros c v Hg. destruct Hcats as [-> | (Hno & ->)]; [done|].
        rewrite get_set_ne; [done|]. intros <-. change (categories sq) with (categories s) in Hno.
        congruence.
      * intros l' k v Hg. rewrite Hh. change (heap sq) with (heap s) in *.
        destruct (decide (l = l')) as [<-|Hne].
        -- rewrite deref_insert_eq, get_set_ne; [done|]. intros <-. congruence.
        -- by rewrite deref_insert_ne.
  - unfold organise_downloads, bind, print, modify. simpl. by rewrite Hf.
Qed.

(** The loop of the pass leaves alone what is not a file. *)
Lemma for_each_no_file (self : FileOrganizer) names s :
  forallb (fun name => negb (fs_isfile (PyStr.join (folder_to_watch self) [name]) (disk s)))
          names = true ->
  for_each (organize_file self) names s = (Ok tt, s).
Proof.
  induction names as [|name r IH]; simpl; [done|].
  intros [Hn Hr]%andb_true_iff. apply negb_true_iff in Hn.
  unfold for_each in *. simpl. unfold bind at 1.
  unfold organize_file at 1. unfold bind, gets. cbv beta iota. rewrite Hn.
  by apply IH.
Qed.

(** The pass leaves alone what is not a file: when the listing of the
    watched folder has no file, [organize_files_in_directory] prints its
    first line and returns; the filesystem, the schema and the schema
    file are as they were, and the console has that one line more. *)
Theorem pass_skips_what_is_no_file (self : FileOrganizer) names s :
  fs_listdir (folder_to_watch self) (disk s) = Ok names ->
  forallb (fun name => negb (fs_isfile (PyStr.join (folder_to_watch self) [name]) (disk s)))
          names = true ->
  organize_files_in_directory self s
    = (Ok tt, set_console (console s ++ [msg_starting self]) s).
Proof.
  intros Hls Hnames.
  unfold organize_files_in_directory, bind, print, modify. cbv beta iota.
  cbn [disk set_console]. rewrite Hls.
  by apply for_each_no_file.
Qed.

End ExtFacts.

(** ** More about loading, saving and reconciling *)

Section SchemaFacts.
Import Ext Inv.
Context {fs : Type} `{Filesystem fs}.
Implicit Types (s : state (fs:=fs)) (h : gmap loc (list (string * json))).
Implicit Types (d : list (string * json)) (cats : list (string * pyval)).

(** With the default schema in place, the schema that [load_categories]
    returns has every category of the default, bound to a dict that has
    every subcategory of the default, bound to a list. *)
Theorem load_categories_has_default (self : FileOrganizer) L s :
  wf_default self (heap s) = true ->
  store s = Some (JObj L) ->
  exists c1 s1,
    load_categories self s = (Ok c1, s1) /\
    forall c dl, In (c, dl) (default_categories self) ->
      exists l, Dict.get c c1 = Some (VDict l) /\
        forall sub e, In (sub, e) (deref dl (heap s)) ->
          exists v, Dict.get sub (deref l (heap s1)) = Some v /\ is_list v = true.
Proof.
  intros Hwf Hst.
  destruct (load_categories_synced self L s Hwf Hst) as (c1 & s1 & Hrun & Hsy & Hkeep).
  exists c1, s1. split; [done|]. intros c dl Hin.
  destruct (Hsy c dl Hin) as (l & Hg & Hc). exists l. split; [done|].
  intros sub e Hsub. apply (Hc sub e). unfold deref. by rewrite (Hkeep c dl Hin).
Qed.

(** Loading and reconciling a document leaves every dict of the default
    as it was: [sync_categories] binds categories to these dicts but
    writes only into the dicts that [json.load] has made. *)
Theorem load_categories_keeps_default (self : FileOrganizer) L s :
  wf_default self (heap s) = true ->
  store s = Some (JObj L) ->
  exists c1 s1,
    load_categories self s = (Ok c1, s1) /\
    forall c dl, In (c, dl) (default_categories self) ->
      deref dl (heap s1) = deref dl (heap s).
Proof.
  intros Hwf Hst.
  destruct (load_categories_synced self L s Hwf Hst) as (c1 & s1 & Hrun & _ & Hkeep).
  exists c1, s1. split; [done|]. intros c dl Hin. unfold deref.
  by rewrite (Hkeep c dl Hin).
Qed.

Lemma keys_set {V} (d : list (string * V)) k v :
  map fst (Dict.set k v d) = if Dict.mem k d then map fst d else map fst d ++ [k].
Proof.
  unfold Dict.mem. induction d as [|[k' v'] r IH]; simpl; [done|].
  destruct (String.eqb k k'); simpl; [done|].
  rewrite IH. by destruct (Dict.get k r).
Qed.

Lemma mem_In {V} (d : list (string * V)) k : Dict.mem k d = true <-> In k (map fst d).
Proof.
  unfold Dict.mem. induction d as [|[k' v'] r IH]; simpl; [split; [done | intros []]|].
  destruct (String.eqb k k') eqn:E.
  - apply String.eqb_eq in E. subst. split; [by left | done].
  - apply String.eqb_neq in E. rewrite IH. split; [by right|].
    by intros [?|?]; [congruence|].
Qed.

(** One iteration of the outer loop keeps the order of the categories and
    puts a new one last. *)
Lemma sync_category_keys cats u c dl s :
  exists cats' u' s',
    sync_category (cats, u) (c, dl) s = (Ok (cats', u'), s') /\
    map fst cats' = if Dict.mem c cats then map fst cats else map fst cats ++ [c].
Proof.
  unfold sync_category, Dict.mem.
  destruct (Dict.get c cats) as [[l|n]|] eqn:Hg.
  - destruct (inner_loop_spec c l (deref dl (heap s)) u s) as (u' & s' & Hrun & _).
    exists cats, u', s'. split; [|done].
    unfold bind, ret, read, gets. simpl. by rewrite Hrun.
  - destruct (inner_loop_spec c dl (deref dl (heap s)) true
                (set_console (console s ++ [("Warning: " ++ c
                   ++ " is not a dictionary, resetting to default.")%string]) s))
      as (u' & s' & Hrun & _).
    eexists _, u', s'. split.
    + unfold bind, ret, read, gets, print, modify. simpl. simpl in Hrun.
      rewrite Hrun. reflexivity.
    + rewrite keys_set. unfold Dict.mem. by rewrite Hg.
  - eexists _, _, _. split; [reflexivity|].
    rewrite keys_set. unfold Dict.mem. by rewrite Hg.
Qed.

Lemma sync_loop_keys todo : forall cats u s,
  NoDup (map fst todo) ->
  exists cats' u' s',
    for_fold sync_category (cats, u) todo s = (Ok (cats', u'), s') /\
    map fst cats'
      = map fst cats ++ List.filter (fun c => negb (Dict.mem c cats)) (map fst todo).
Proof.
  induction todo as [|[c dl] r IH]; intros cats u s Hnd.
  - exists cats, u, s. split; [done|]. simpl. by rewrite app_nil_r.
  - apply NoDup_cons in Hnd as [Hc Hnd].
    destruct (sync_category_keys cats u c dl s) as (cats1 & u1 & s1 & Hrun & Hk).
    destruct (IH cats1 u1 s1 Hnd) as (cats' & u' & s' & Hrun' & Hk').
    exists cats', u', s'. split; [by rewrite (for_fold_cons _ _ _ _ _ _ _ Hrun)|].
    assert (List.filter (fun c0 => negb (Dict.mem c0 cats1)) (map fst r)
            = List.filter (fun c0 => negb (Dict.mem c0 cats)) (map fst r)) as Hf.
    { apply filter_ext_in. intros c' Hin'. f_equal.
      assert (c' <> c) as Hne.
      { intros ->. apply Hc. by apply list_elem_of_In. }
      apply eq_true_iff_eq. rewrite !mem_In, Hk.
      destruct (Dict.mem c cats); [done|].
      rewrite in_app_iff. simpl. split; [|by left].
      by intros [?|[?|[]]]; [|congruence]. }
    rewrite Hk', Hf, Hk. simpl.
    destruct (Dict.mem c cats); simpl; [done|]. by rewrite <- app_assoc.
Qed.

Lemma load_value_ok v s :
  exists v' s1, load_value v s = (Ok v', s1) /\ store s1 = store s.
Proof. destruct v; eexists _, _; (split; [reflexivity | done]). Qed.

Lemma load_entries_frame kvs : forall s cats s',
  load_entries kvs s = (Ok cats, s') ->
  map fst cats = map fst kvs /\ store s' = store s.
Proof.
  induction kvs as [|[k v] r IH]; intros s cats s' Hrun; simpl in Hrun.
  - by injection Hrun as <- <-.
  - unfold bind in Hrun. destruct (load_value_ok v s) as (v' & s1 & Hv & Hst).
    rewrite Hv in Hrun.
    destruct (load_entries r s1) as [[cr|e] s2] eqn:Hr; [|done].
    injection Hrun as <- <-. destruct (IH _ _ _ Hr) as [Hk Hst2].
    simpl. split; [by rewrite Hk | congruence].
Qed.

(** The categories of the schema file keep their order and come first;
    the categories of the default that the file does not have follow, in
    the order of the default. A category of the file is therefore tried
    before every category that reconciliation adds. *)
Theorem load_categories_order (self : FileOrganizer) L s :
  nodupb (map fst (default_categories self)) = true ->
  store s = Some (JObj L) ->
  exists c1 s1,
    load_categories self s = (Ok c1, s1) /\
    map fst c1
      = map fst (Dict.of_pairs L)
        ++ List.filter (fun c => negb (Dict.mem c (Dict.of_pairs L)))
                       (map fst (default_categories self)).
Proof.
  intros Hnd%nodupb_NoDup Hst.
  destruct (load_entries_spec (Dict.of_pairs L) s) as (cats0 & s0 & Hload & _).
  destruct (load_entries_frame _ _ _ _ Hload) as [Hk0 _].
  set (s0' := set_console (console s0 ++ ["Categories loaded from JSON."]) s0).
  destruct (sync_loop_keys (default_categories self) cats0 false s0' Hnd)
    as (c1 & u1 & s1 & Hrun & Hk).
  destruct (sync_categories_run self cats0 s0' c1 u1 s1 Hrun) as (s2 & Hrun2 & _).
  exists c1, s2. split.
  - by rewrite (load_categories_run self L s cats0 s0 Hst Hload).
  - rewrite Hk, Hk0. f_equal. apply filter_ext. intros c. f_equal.
    apply eq_true_iff_eq. by rewrite !mem_In, Hk0.
Qed.

(** On a name that the dict has, an iteration of the inner loop leaves
    [updated] and the schema file as they are, also when it rebinds the
    name. *)
Lemma sync_subcategory_quiet c l u sub e s :
  Dict.mem sub (deref l (heap s)) = true ->
  exists s1, sync_subcategory c l u (sub, e) s = (Ok u, s1) /\ store s1 = store s.
Proof.
  intros Hm. unfold sync_subcategory, bind, ret, read, write, print, gets, modify.
  simpl. rewrite Hm. simpl.
  apply mem_true in Hm as [v Hg]. rewrite Hg.
  destruct (is_list v); eexists; (split; [reflexivity | done]).
Qed.

Lemma inner_loop_quiet c l items : forall u s,
  (forall k e, In (k, e) items -> Dict.mem k (deref l (heap s)) = true) ->
  exists s', for_fold (sync_subcategory c l) u items s = (Ok u, s') /\ store s' = store s.
Proof.
  induction items as [|[sub e] r IH]; intros u s Hall.
  - by exists s.
  - destruct (sync_subcategory_quiet c l u sub e s) as (s1 & Hrun & Hst).
    { apply (Hall sub e). by left. }
    destruct (sync_subcategory_heap c l u (sub, e) s) as (u1 & s1' & Hrun' & _ & Hd & _).
    rewrite Hrun in Hrun'. injection Hrun' as <- <-.
    destruct (IH u s1) as (s' & Hrun2 & Hst2).
    { intros k e' Hin. rewrite Hd. apply mem_true.
      assert (Dict.mem k (deref l (heap s)) = true) as Hk by (apply (Hall k e'); by right).
      apply mem_true in Hk as [v Hg].
      destruct (sub_step_le (deref l (heap s)) (sub, e) k v Hg) as (v' & Hg' & _). eauto. }
    exists s'. split; [|congruence].
    by rewrite (for_fold_cons _ _ _ _ _ _ _ Hrun).
Qed.

(** When every category of the default is bound to a dict outside the
    default that has every subcategory name, the loop leaves [updated],
    the categories and the schema file as they are. *)
Lemma sync_loop_quiet (locs : list loc) cats todo : forall u s,
  (forall c dl, In (c, dl) todo -> In dl locs) ->
  (forall c dl, In (c, dl) todo ->
     exists l, Dict.get c cats = Some (VDict l) /\ ~ In l locs /\
       forall k e, In (k, e) (deref dl (heap s)) -> Dict.mem k (deref l (heap s)) = true) ->
  exists s',
    for_fold sync_category (cats, u) todo s = (Ok (cats, u), s') /\
    store s' = store s /\
    heap_le (heap s) (heap s') /\
    (forall dl, In dl locs -> heap s' !! dl = heap s !! dl).
Proof.
  induction todo as [|[c dl] r IH]; intros u s Hin Hall.
  - exists s. split_and!; [done | done | apply heap_le_refl | done].
  - destruct (Hall c dl) as (l & Hg & Hl & Hnames); [by left|].
    destruct (inner_loop_quiet c l (deref dl (heap s)) u s Hnames) as (s1 & Hloop & Hst).
    assert (sync_category (cats, u) (c, dl) s = (Ok (cats, u), s1)) as Hrun.
    { unfold sync_category. rewrite Hg. unfold bind, ret, read, gets. simpl.
      by rewrite Hloop. }
    destruct (sync_category_spec cats u c dl s)
      as (cats1 & u1 & s1' & Hrun' & Hle & _ & Ho & _).
    rewrite Hrun in Hrun'. injection Hrun' as <- <- <-.
    assert (forall dl', In dl' locs -> heap s1 !! dl' = heap s !! dl') as Hkeep.
    { intros dl' Hdl'. apply Ho. unfold target. rewrite Hg. by intros ->. }
    destruct (IH u s1) as (s' & Hrun2 & Hst2 & Hle2 & Hkeep2).
    + intros c' dl' Hin'. apply (Hin c' dl'). by right.
    + intros c' dl' Hin'. destruct (Hall c' dl') as (l' & Hg' & Hl' & Hn'); [by right|].
      exists l'. split_and!; [done | done |].
      intros k e Hke. unfold deref in Hke at 1.
      rewrite (Hkeep dl') in Hke; [|apply (Hin c' dl'); by right].
      specialize (Hn' k e Hke). apply mem_true in Hn' as [v Hv].
      destruct (deref_le _ _ l' Hle k v Hv) as (v' & Hv' & _).
      apply mem_true. eauto.
    + exists s'. split_and!.
      * by rewrite (for_fold_cons _ _ _ _ _ _ _ Hrun).
      * congruence.
      * by eapply heap_le_trans.
      * intros dl' Hdl'. by rewrite Hkeep2, Hkeep.
Qed.

(** A subcategory that is rebound to the list of the default is not
    saved. When the document has every category of the default, as an
    object, with every subcategory name of the default, [load_categories]
    leaves the schema file as it is, while in the schema it returns every
    subcategory of the default is bound to a list: line 159 rebinds the
    name without setting [updated]. *)
Theorem reset_is_not_saved (self : FileOrganizer) L s :
  wf_default self (heap s) = true ->
  store s = Some (JObj L) ->
  complete_doc self (heap s) L = true ->
  exists c1 s1,
    load_categories self s = (Ok c1, s1) /\
    store s1 = Some (JObj L) /\
    forall c dl, In (c, dl) (default_categories self) -> synced c1 (heap s1) c dl.
Proof.
  intros Hwf Hst Hdoc.
  destruct (load_categories_synced self L s Hwf Hst) as (c1 & s1 & Hrun & Hsy & _).
  exists c1, s1. split_and!; [done | | done].
  destruct (wf_default_spec _ _ Hwf) as [_ Hdef].
  destruct (load_entries_spec (Dict.of_pairs L) s)
    as (cats0 & s0 & Hload & Hsub & Hfresh & Hobj).
  destruct (load_entries_frame _ _ _ _ Hload) as [_ Hst0].
  set (s0' := set_console (console s0 ++ ["Categories loaded from JSON."]) s0).
  destruct (sync_loop_quiet (map snd (default_categories self)) cats0
              (default_categories self) false s0') as (s2 & Hloop & Hst2 & _).
  - intros c dl Hin. apply in_map_iff. by exists (c, dl).
  - intros c dl Hin. unfold complete_doc in Hdoc. rewrite forallb_forall in Hdoc.
    specialize (Hdoc _ Hin). simpl in Hdoc.
    destruct (Dict.get c (Dict.of_pairs L)) as [[| | | | |sub]|] eqn:Hg; try done.
    destruct (Hobj c _ Hg) as (v' & Hg' & Hv').
    destruct (Hv' sub eq_refl) as (l & -> & Hl).
    exists l. split_and!; [done | |].
    + intros ((c' & dl') & Heq & Hin')%in_map_iff. simpl in Heq. subst dl'.
      destruct (Hdef c' l Hin') as (d & Hld & _).
      apply get_In in Hg'. rewrite (Hfresh c l Hg') in Hld. done.
    + intros k e Hke. simpl. unfold deref at 1. rewrite Hl. simpl.
      rewrite forallb_forall in Hdoc.
      destruct (Hdef c dl Hin) as (d & Hld & _).
      unfold deref in Hke. simpl in Hke.
      rewrite (lookup_weaken _ _ _ _ Hld Hsub) in Hke. simpl in Hke.
      apply (Hdoc (k, e)). unfold deref. by rewrite Hld.
  - rewrite (load_categories_run self L s cats0 s0 Hst Hload) in Hrun.
    unfold sync_categories, sync_loop, bind in Hrun. fold s0' in Hrun.
    rewrite Hloop in Hrun. injection Hrun as <- <-.
    rewrite Hst2. simpl. congruence.
Qed.

Lemma get_notin {V} (d : list (string * V)) k : ~ In k (map fst d) -> Dict.get k d = None.
Proof.
  intros Hn. destruct (Dict.get k d) as [v|] eqn:Hg; [|done].
  destruct Hn. apply mem_In. apply mem_true. eauto.
Qed.

Lemma of_pairs_app {V} (kvs : list (string * V)) : forall acc,
  NoDup (map fst (acc ++ kvs)) ->
  fold_left (fun a kv => Dict.set (fst kv) (snd kv) a) kvs acc = acc ++ kvs.
Proof.
  induction kvs as [|[k v] r IH]; intros acc Hnd; simpl.
  - by rewrite app_nil_r.
  - rewrite set_absent.
    + rewrite IH; rewrite <- app_assoc; done.
    + apply get_notin. rewrite map_app in Hnd. simpl in Hnd.
      apply NoDup_app in Hnd as (_ & Hdis & _). intros Hin%list_elem_of_In.
      apply (Hdis k Hin). by left.
Qed.

(** A list of pairs with distinct names is the dict it builds. *)
Lemma of_pairs_nodup {V} (kvs : list (string * V)) :
  nodupb (map fst kvs) = true -> Dict.of_pairs kvs = kvs.
Proof. intros Hnd%nodupb_NoDup. by apply (of_pairs_app kvs []). Qed.

(** Loading what was dumped from [h0] gives values that dump to the same
    document. *)
Lemma load_dumped h0 cats : forall s,
  forallb (fun kv => match snd kv with
                     | VDict l => nodupb (map fst (deref l h0))
                     | VOther _ => true
                     end) cats = true ->
  exists cats' s',
    load_entries (dump_pairs h0 cats) s = (Ok cats', s') /\
    heap s ⊆ heap s' /\
    dump_pairs (heap s') cats' = dump_pairs h0 cats.
Proof.
  induction cats as [|[c v] r IH]; intros s Hwf; simpl in Hwf.
  - exists [], s. split_and!; done.
  - apply andb_true_iff in Hwf as [Hv Hr].
    assert (exists v' s1,
      load_value (dump_value h0 v) s = (Ok v', s1) /\ heap s ⊆ heap s1 /\
      forall h', heap s1 ⊆ h' -> dump_value h' v' = dump_value h0 v)
      as (v' & s1 & Hrun & Hsub & Hdump).
    { destruct v as [l|n]; simpl.
      - pose proof (is_fresh (dom (heap s))) as Hf. apply not_elem_of_dom in Hf.
        eexists _, _. split; [reflexivity|]. simpl. split; [by apply insert_subseteq|].
        intros h' Hh'. simpl. unfold deref at 1.
        erewrite (lookup_weaken _ h'); [|apply lookup_insert_eq | exact Hh'].
        simpl. by rewrite (of_pairs_nodup _ Hv).
      - destruct n; eexists _, s; (split; [reflexivity|]); split; done. }
    destruct (IH s1 Hr) as (cats' & s' & Hrun' & Hsub' & Hdump').
    exists ((c, v') :: cats'), s'. split_and!.
    + simpl. unfold bind, ret. fold (dump_pairs h0 r). by rewrite Hrun, Hrun'.
    + by etrans.
    + unfold dump_pairs in *. simpl. by rewrite Hdump', (Hdump _ Hsub').
Qed.

(** Saving a schema and loading the file gives a schema with the same
    content: the document that [save_categories] writes is the document
    that [json.load] of it, dumped again, gives. *)
Theorem save_then_load (cats : list (string * pyval)) s :
  wf_schema (heap s) cats = true ->
  let s1 := snd (save_categories cats s) in
  store s1 = Some (JObj (dump_pairs (heap s) cats)) /\
  exists cats' s2,
    json_load (dump_pairs (heap s) cats) s1 = (Ok cats', s2) /\
    dump (heap s2) cats' = dump (heap s) cats.
Proof.
  intros [Hn Hd]%andb_true_iff s1. split; [done|].
  destruct (load_dumped (heap s) cats s1 Hd) as (cats' & s2 & Hrun & _ & Hdump).
  exists cats', s2. split.
  - unfold json_load. rewrite of_pairs_nodup; [done|].
    unfold dump_pairs. rewrite map_map. simpl. exact Hn.
  - unfold dump. fold (dump_pairs (heap s2) cats'). fold (dump_pairs (heap s) cats).
    by rewrite Hdump.
Qed.

End SchemaFacts.

(** ** More about the keyword variant *)

Section KwFacts.
Import Inv.
Context {fs : Type} `{Filesystem fs}.
Implicit Types (st : Kw.state (fs:=fs)) (d : list (string * json)).

Lemma any_keyword_lower item item' xs :
  PyStr.lower item = PyStr.lower item' -> Kw.any_keyword item xs = Kw.any_keyword item' xs.
Proof.
  intros Heq. induction xs as [|x r IH]; simpl; [done|].
  destruct x; try done. by rewrite Heq, IH.
Qed.

Lemma any_keyword_kws_lower item ks :
  Kw.any_keyword item (map JStr (map PyStr.lower ks)) = Kw.any_keyword item (map JStr ks).
Proof.
  induction ks as [|k r IH]; simpl; [done|]. by rewrite lower_idem, IH.
Qed.

(** Matching ignores the case of the ASCII letters, in the name of the
    item and in the keywords: two names with the same lower-case form go
    to the same category, and lower-casing the keywords of a list changes
    nothing. *)
Theorem find_category_ignores_case item item' d ks :
  PyStr.lower item = PyStr.lower item' ->
  Kw.find_category item d = Kw.find_category item' d /\
  Kw.matches item (Kw.kws (map PyStr.lower ks)) = Kw.matches item (Kw.kws ks).
Proof.
  intros Heq. split.
  - induction d as [|[c v] r IH]; simpl; [done|].
    assert (Kw.matches item v = Kw.matches item' v) as ->.
    { unfold Kw.matches. destruct (Kw.iterate v); [|done]. by apply any_keyword_lower. }
    by rewrite IH.
  - unfold Kw.matches, Kw.kws. simpl. apply any_keyword_kws_lower.
Qed.

Lemma startswith_refl x : PyStr.startswith x x = true.
Proof. induction x as [|c r IH]; simpl; [done|]. by rewrite Ascii.eqb_refl. Qed.

Lemma contains_refl x : PyStr.contains x x = true.
Proof. destruct x; simpl; [done|]. by rewrite Ascii.eqb_refl, startswith_refl. Qed.

Lemma any_keyword_app item xs ys :
  Kw.any_keyword item xs = Ok false ->
  Kw.any_keyword item (xs ++ ys) = Kw.any_keyword item ys.
Proof.
  induction xs as [|x r IH]; simpl; [done|].
  destruct x; try done.
  by destruct (PyStr.contains _ _).
Qed.

Lemma find_category_get item d c v :
  Kw.find_category item d = Ok None -> Dict.get c d = Some v ->
  Kw.matches item v = Ok false.
Proof.
  induction d as [|[c' v'] r IH]; simpl; [done|].
  destruct (Kw.matches item v') as [[|]|] eqn:Hm; try done.
  destruct (String.eqb c c'); [by intros _ [= <-] | exact IH].
Qed.

Lemma find_category_set item d c v :
  Kw.find_category item d = Ok None ->
  Kw.find_category item (Dict.set c v d)
    = match Kw.matches item v with
      | Ok true => Ok (Some c)
      | Ok false => Ok None
      | Raise e => Raise e
      end.
Proof.
  induction d as [|[c' v'] r IH]; simpl; [done|].
  destruct (Kw.matches item v') as [[|]|] eqn:Hm; try done.
  intros Hr. destruct (String.eqb c c') eqn:E; simpl.
  - apply String.eqb_eq in E. subst c'. rewrite Hr. by destruct (Kw.matches item v) as [[|]|].
  - rewrite Hm. by apply IH.
Qed.

(** [add_category] on a category that is absent or bound to a list
    returns, with the keyword last in the list of the category; the other
    categories are as they were. *)
Lemma add_category_spec c keyword st d :
  Kw.mapping st = JObj d ->
  appendable c d = true ->
  exists xs,
    (Dict.get c d = Some (JArr xs) \/ (Dict.get c d = None /\ xs = [])) /\
    Kw.add_category c keyword st =
      (Ok tt,
       Kw.set_mapping
         (JObj (Dict.set c (JArr (xs ++ [JStr keyword]))
                  (if Dict.mem c d then d else Dict.set c (JArr []) d))) st).
Proof.
  intros Hm Happ. unfold appendable in Happ.
  unfold Kw.add_category, bind, gets, modify. cbv beta iota. rewrite Hm.
  unfold Dict.mem. destruct (Dict.get c d) as [v|] eqn:Hg.
  - destruct v; try done. rewrite Hg. eexists. split; [by left | done].
  - rewrite get_set_eq. exists []. split; [by right | done].
Qed.

(** Once the name of an item that matched nothing is added under a
    category, the resolver sends that name to that category. *)
Theorem add_category_teaches c item st d :
  Kw.mapping st = JObj d ->
  Kw.find_category item d = Ok None ->
  appendable c d = true ->
  exists d',
    Kw.add_category c item st = (Ok tt, Kw.set_mapping (JObj d') st) /\
    Kw.find_category item d' = Ok (Some c).
Proof.
  intros Hm Hnone Happ.
  destruct (add_category_spec c item st d Hm Happ) as (xs & Hxs & Hrun).
  eexists. split; [exact Hrun|].
  assert (Kw.matches item (JArr (xs ++ [JStr item])) = Ok true) as Hhit.
  { unfold Kw.matches. simpl. rewrite any_keyword_app.
    - simpl. by rewrite contains_refl.
    - destruct Hxs as [Hg | [_ ->]]; [|done].
      exact (find_category_get item d c _ Hnone Hg). }
  destruct (Dict.mem c d).
  - by rewrite (find_category_set item d c _ Hnone), Hhit.
  - rewrite find_category_set, Hhit; [done|].
    by rewrite (find_category_set item d c _ Hnone).
Qed.

(** Past its first guard and on an item that is not a directory,
    [move_item] is [makedirs] and the move primitive: it returns or raises
    as the primitive does. *)
Lemma move_item_run cwd item_path target st :
  let dst := PyStr.join target [PyStr.basename item_path] in
  let d1 := fst (fs_makedirs true target (Kw.disk st)) in
  snd (fs_makedirs true target (Kw.disk st)) = None ->
  PyStr.abspath cwd item_path <> PyStr.abspath cwd dst ->
  fs_isdir item_path d1 = false ->
  Kw.move_item cwd item_path target st =
    (match snd (fs_move item_path dst d1) with
     | None => Ok tt
     | Some e => Raise e
     end,
     Kw.set_disk (fst (fs_move item_path dst d1)) st).
Proof.
  intros dst d1 Hmk Hne Hdir. subst d1.
  unfold Kw.move_item, bind, Kw.fs_call, gets, ret. cbv beta iota. fold dst.
  destruct (fs_makedirs true target (Kw.disk st)) as [d1 r1]. simpl in *. subst r1.
  apply String.eqb_neq in Hne. rewrite Hne. cbn [Kw.disk Kw.set_disk].
  rewrite Hdir. cbn [Kw.disk Kw.set_disk].
  by destruct (fs_move item_path dst d1) as [d2 [e|]].
Qed.

(** [handle_uncategorized_item] on a file, step by step. *)
Lemma handle_uncategorized_item_run cwd input source_folder item st d :
  let item_path := PyStr.join source_folder [item] in
  let c := chosen_category input item in
  let target := PyStr.join source_folder [c] in
  let dst := PyStr.join target [PyStr.basename item_path] in
  let d1 := fst (fs_makedirs true target (Kw.disk st)) in
  let r := Kw.handle_uncategorized_item cwd input source_folder item_path item st in
  Kw.mapping st = JObj d ->
  appendable c d = true ->
  fs_isdir item_path (Kw.disk st) = false ->
  snd (fs_makedirs true target (Kw.disk st)) = None ->
  PyStr.abspath cwd item_path <> PyStr.abspath cwd dst ->
  fs_isdir item_path d1 = false ->
  (exists d' xs, Kw.mapping (snd r) = JObj d' /\
                 Dict.get c d' = Some (JArr (xs ++ [JStr item]))) /\
  Kw.disk (snd r) = fst (fs_move item_path dst d1) /\
  match snd (fs_move item_path dst d1) with
  | Some e => fst r = Raise e /\ Kw.store (snd r) = Kw.store st
  | None => fst r = Ok tt /\ Kw.store (snd r) = Some (Kw.mapping (snd r))
  end.
Proof.
  intros item_path c target dst d1 r Hm Happ Hdir Hmk Hne Hdir1.
  set (st1 := Kw.set_console
                (Kw.console st ++ [("Uncategorized item found: '" ++ item ++ "'")%string])
                st).
  set (st2 := Kw.set_console (Kw.console st1 ++ [prompt_for item]) st1).
  destruct (add_category_spec c item st2 d Hm Happ) as (xs & _ & Hadd).
  set (d' := Dict.set c (JArr (xs ++ [JStr item])) _) in Hadd.
  set (st3 := Kw.set_mapping (JObj d') st2) in Hadd.
  pose proof (move_item_run cwd item_path target st3 Hmk Hne Hdir1) as Hmove.
  fold dst in Hmove. change (Kw.disk st3) with (Kw.disk st) in Hmove. fold d1 in Hmove.
  assert (Kw.is_category_folder item_path item st = (Ok false, st)) as Hskip.
  { unfold Kw.is_category_folder, bind, gets. cbv beta iota. by rewrite Hdir. }
  assert (r = match snd (fs_move item_path dst d1) with
              | Some e => (Raise e, Kw.set_disk (fst (fs_move item_path dst d1)) st3)
              | None =>
                  Kw.save_mapping
                    (Kw.set_console
                       (Kw.console st3 ++ [Kw.msg_moved_to item c])
                       (Kw.set_disk (fst (fs_move item_path dst d1)) st3))
              end) as Hr.
  { subst r. unfold Kw.handle_uncategorized_item.
    rewrite (bind_ok _ _ _ _ _ Hskip). cbv beta iota zeta.
    rewrite (bind_ok (Kw.print ("Uncategorized item found: '" ++ item ++ "'")%string)
               _ st tt st1 eq_refl).
    rewrite (bind_ok (Kw.print (prompt_for item)) _ st1 tt st2 eq_refl).
    rewrite (bind_ok _ _ st2 tt st3 Hadd).
    destruct (fs_move item_path dst d1) as [d2 [e|]]; simpl in Hmove |- *.
    - by rewrite (bind_raise _ _ _ _ _ Hmove).
    - rewrite (bind_ok _ _ _ _ _ Hmove).
      by rewrite (bind_ok (Kw.print (Kw.msg_moved_to item c)) _ _ tt _ eq_refl). }
  rewrite Hr.
  destruct (fs_move item_path dst d1) as [d2 [e|]]; simpl;
    (split; [exists d', xs; split; [done | apply get_set_eq] | done]).
Qed.

(** What [handle_uncategorized_item] does with a file: the name is added
    under the chosen category, then the file is moved, then the mapping
    is saved. When the move fails the exception leaves the function
    before the save: the mapping has the name, the mapping file does not.
    When the move succeeds the mapping file holds the mapping. *)
Theorem handle_uncategorized_file cwd input source_folder item st d :
  let item_path := PyStr.join source_folder [item] in
  let c := chosen_category input item in
  let target := PyStr.join source_folder [c] in
  let dst := PyStr.join target [PyStr.basename item_path] in
  let d1 := fst (fs_makedirs true target (Kw.disk st)) in
  let r := Kw.handle_uncategorized_item cwd input source_folder item_path item st in
  Kw.mapping st = JObj d ->
  appendable c d = true ->
  fs_isdir item_path (Kw.disk st) = false ->
  snd (fs_makedirs true target (Kw.disk st)) = None ->
  PyStr.abspath cwd item_path <> PyStr.abspath cwd dst ->
  fs_isdir item_path d1 = false ->
  (exists d' xs, Kw.mapping (snd r) = JObj d' /\
                 Dict.get c d' = Some (JArr (xs ++ [JStr item]))) /\
  Kw.disk (snd r) = fst (fs_move item_path dst d1) /\
  match snd (fs_move item_path dst d1) with
  | Some e => fst r = Raise e /\ Kw.store (snd r) = Kw.store st
  | None => fst r = Ok tt /\ Kw.store (snd r) = Some (Kw.mapping (snd r))
  end.
Proof. exact (handle_uncategorized_item_run cwd input source_folder item st d). Qed.

Lemma lstrip_all_space x : all_space x = true -> PyStr.lstrip x = "".
Proof.
  induction x as [|c r IH]; simpl; [done|].
  intros [Hc Hr]%andb_true_iff. rewrite Hc. by apply IH.
Qed.

(** No answer, or one of ASCII white space only, chooses
    ["Miscellaneous"]. *)
Lemma chosen_category_blank input item :
  all_space (input (prompt_for item)) = true ->
  chosen_category input item = "Miscellaneous".
Proof.
  intros Hb. unfold chosen_category, PyStr.strip. by rewrite (lstrip_all_space _ Hb).
Qed.

(** When the user answers the prompt with nothing, or with ASCII white
    space only, [handle_uncategorized_item] files the file under
    ["Miscellaneous"]: the name is added to the keywords of that category,
    the file is handed to the move primitive with a destination in the
    folder [Miscellaneous] of the source folder, and, when the move
    succeeds, the mapping is saved. *)
Theorem blank_answer_is_miscellaneous cwd input source_folder item st d :
  let item_path := PyStr.join source_folder [item] in
  let target := PyStr.join source_folder ["Miscellaneous"] in
  let dst := PyStr.join target [PyStr.basename item_path] in
  let d1 := fst (fs_makedirs true target (Kw.disk st)) in
  let r := Kw.handle_uncategorized_item cwd input source_folder item_path item st in
  all_space (input (prompt_for item)) = true ->
  Kw.mapping st = JObj d ->
  appendable "Miscellaneous" d = true ->
  fs_isdir item_path (Kw.disk st) = false ->
  snd (fs_makedirs true target (Kw.disk st)) = None ->
  PyStr.abspath cwd item_path <> PyStr.abspath cwd dst ->
  fs_isdir item_path d1 = false ->
  (exists d' xs, Kw.mapping (snd r) = JObj d' /\
                 Dict.get "Miscellaneous" d' = Some (JArr (xs ++ [JStr item]))) /\
  Kw.disk (snd r) = fst (fs_move item_path dst d1) /\
  match snd (fs_move item_path dst d1) with
  | Some e => fst r = Raise e /\ Kw.store (snd r) = Kw.store st
  | None => fst r = Ok tt /\ Kw.store (snd r) = Some (Kw.mapping (snd r))
  end.
Proof.
  intros item_path target dst d1 r Hblank.
  pose proof (handle_uncategorized_item_run cwd input source_folder item st d) as Hrun.
  rewrite (chosen_category_blank input item Hblank) in Hrun. exact Hrun.
Qed.

Lemma startswith_sep_app c r x : PyStr.startswith_sep (String c r ++ x) = PyStr.is_sep c.
Proof. done. Qed.

(** No component of [str.split("/")] begins with a separator. *)
Lemma split_sep_head p : forall x, In x (PyStr.split_sep p) -> PyStr.startswith_sep x = false.
Proof.
  induction p as [|c r IH]; simpl.
  - by intros x [<-|[]].
  - destruct (PyStr.is_sep c) eqn:Hc.
    + intros x [<-|Hin]; [done | by apply IH].
    + destruct (PyStr.split_sep r) as [|x0 t] eqn:Hs.
      * by intros x [<-|[]].
      * intros x [<-|Hin]; [done|]. apply IH. by right.
Qed.

Lemma common_prefix_In a : forall b x, In x (PyStr.common_prefix a b) -> In x a.
Proof.
  induction a as [|y a' IH]; intros [|z b'] x; simpl; try done.
  destruct (String.eqb y z); [|done].
  intros [<-|Hin]; [by left | right; by eapply IH].
Qed.

Lemma join_sep_head comps :
  (forall x, In x comps -> x <> "" /\ PyStr.startswith_sep x = false) ->
  PyStr.startswith_sep (PyStr.join_sep comps) = false.
Proof.
  destruct comps as [|x r]; [done|]. intros Hall.
  destruct (Hall x (or_introl eq_refl)) as [Hne Hx].
  destruct x as [|c x']; [done|]. simpl in Hx.
  simpl. by destruct r.
Qed.

(** The common path of a relative path and another path is relative. *)
Lemma commonpath_relative a b c :
  PyStr.startswith_sep a = false -> PyStr.commonpath a b = Some c ->
  PyStr.startswith_sep c = false.
Proof.
  intros Ha. unfold PyStr.commonpath. rewrite Ha.
  destruct (Bool.eqb false (PyStr.startswith_sep b)); [|done].
  intros [= <-]. simpl. apply join_sep_head. intros x Hin%common_prefix_In.
  unfold PyStr.path_comps in Hin. apply filter_In in Hin as [Hin Hf]. split.
  - intros ->. done.
  - by eapply split_sep_head.
Qed.

Lemma startswith_slash p : PyStr.startswith_sep p = true -> PyStr.startswith "/" p = true.
Proof.
  destruct p as [|c r]; simpl; [done|]. unfold PyStr.is_sep.
  intros Hc%Ascii.eqb_eq. subst c. done.
Qed.

(** [normpath] keeps an absolute path absolute. *)
Lemma normpath_absolute p :
  PyStr.startswith_sep p = true -> PyStr.startswith_sep (PyStr.normpath p) = true.
Proof.
  intros Hp. unfold PyStr.normpath.
  destruct (String.eqb p "") eqn:E; [apply String.eqb_eq in E; by subst|].
  unfold PyStr.initial_slashes. rewrite (startswith_slash p Hp).
  by destruct (PyStr.startswith "//" p && negb (PyStr.startswith "///" p)).
Qed.

(** In an absolute working directory every absolute path begins with a
    separator. *)
Lemma abspath_absolute cwd p :
  PyStr.startswith_sep cwd = true -> PyStr.startswith_sep (PyStr.abspath cwd p) = true.
Proof.
  intros Hc. unfold PyStr.abspath. apply normpath_absolute.
  destruct (PyStr.startswith_sep p) eqn:Hp; [done|].
  unfold PyStr.join2. rewrite Hp.
  destruct cwd as [|c r]; [done|]. simpl in Hc.
  by destruct (String.eqb (String c r) "" || PyStr.endswith_sep (String c r)).
Qed.

(** The second guard of [move_item] compares the common path of the two
    paths as they are given with the absolute path of the item. With a
    relative item path the two never agree, and the guard never skips: a
    file, or a folder whose destination is relative too, is handed to the
    move primitive; a folder whose destination is absolute makes
    [commonpath] raise [ValueError], which leaves [move_item] before the
    move primitive is called. *)
Theorem relative_folder_is_not_guarded cwd item_path target st :
  let dst := PyStr.join target [PyStr.basename item_path] in
  let d1 := fst (fs_makedirs true target (Kw.disk st)) in
  PyStr.startswith_sep cwd = true ->
  PyStr.startswith_sep item_path = false ->
  snd (fs_makedirs true target (Kw.disk st)) = None ->
  PyStr.abspath cwd item_path <> PyStr.abspath cwd dst ->
  Kw.move_item cwd item_path target st =
    if fs_isdir item_path d1 && PyStr.startswith_sep dst
    then (Raise ValueError, Kw.set_disk d1 st)
    else (match snd (fs_move item_path dst d1) with
          | None => Ok tt
          | Some e => Raise e
          end,
          Kw.set_disk (fst (fs_move item_path dst d1)) st).
Proof.
  intros dst d1 Hcwd Hrel Hmk Hne.
  destruct (fs_isdir item_path d1) eqn:Hdir; [|by apply move_item_run].
  subst d1. unfold Kw.move_item, bind, Kw.fs_call, gets, ret, raise. cbv beta iota.
  fold dst.
  destruct (fs_makedirs true target (Kw.disk st)) as [d1 r1]. simpl in *. subst r1.
  pose proof Hne as Hne'. apply String.eqb_neq in Hne'. rewrite Hne'.
  cbn [Kw.disk Kw.set_disk]. rewrite Hdir.
  destruct (PyStr.commonpath item_path dst) as [c|] eqn:Hc.
  - assert (PyStr.startswith_sep dst = false) as ->.
    { unfold PyStr.commonpath in Hc. rewrite Hrel in Hc.
      by destruct (PyStr.startswith_sep dst). }
    assert (String.eqb c (PyStr.abspath cwd item_path) = false) as ->.
    { apply String.eqb_neq. intros ->.
      pose proof (commonpath_relative _ _ _ Hrel Hc) as H1.
      by rewrite (abspath_absolute cwd item_path Hcwd) in H1. }
    cbn [Kw.disk Kw.set_disk].
    by destruct (fs_move item_path dst d1) as [d2 [e|]].
  - assert (PyStr.startswith_sep dst = true) as ->; [|done].
    unfold PyStr.commonpath in Hc. rewrite Hrel in Hc.
    by destruct (PyStr.startswith_sep dst).
Qed.

(** The second guard of [move_item]: a folder whose destination lies
    under it, both given by absolute normalised paths, is not moved; the
    notice is printed and the move primitive is not called. *)
Theorem folder_into_itself_guard cwd item_path target st :
  let dst := PyStr.join target [PyStr.basename item_path] in
  let d1 := fst (fs_makedirs true target (Kw.disk st)) in
  snd (fs_makedirs true target (Kw.disk st)) = None ->
  PyStr.abspath cwd item_path <> PyStr.abspath cwd dst ->
  fs_isdir item_path d1 = true ->
  PyStr.commonpath item_path dst = Some (PyStr.abspath cwd item_path) ->
  Kw.move_item cwd item_path target st =
    (Ok tt,
     Kw.set_console (Kw.console st ++ [msg_skip_folder item_path]) (Kw.set_disk d1 st)).
Proof.
  intros dst d1 Hmk Hne Hdir Hc. subst d1.
  unfold Kw.move_item, bind, Kw.fs_call, gets, ret. cbv beta iota. fold dst.
  destruct (fs_makedirs true target (Kw.disk st)) as [d1 r1]. simpl in *. subst r1.
  apply String.eqb_neq in Hne. rewrite Hne.
  cbn [Kw.disk Kw.set_disk]. rewrite Hdir, Hc. by rewrite String.eqb_refl.
Qed.

End KwFacts.

(** ** The further properties on concrete inputs *)

Section MoreRuns.
Import Ext Run Inv.

Lemma load_categories_has_default_witness :
  exists c1 s1,
    load_categories self0 (booted (Some (JObj short_doc)) downloads) = (Ok c1, s1) /\
    forall c dl, In (c, dl) (default_categories self0) ->
      exists l, Dict.get c c1 = Some (VDict l) /\
        forall sub e,
          In (sub, e) (deref dl (heap (booted (Some (JObj short_doc)) downloads))) ->
          exists v, Dict.get sub (deref l (heap s1)) = Some v /\ is_list v = true.
Proof.
  apply (load_categories_has_default self0 short_doc); vm_compute; reflexivity.
Defined.

Lemma load_categories_keeps_default_witness :
  exists c1 s1,
    load_categories self0 (booted (Some (JObj short_doc)) downloads) = (Ok c1, s1) /\
    forall c dl, In (c, dl) (default_categories self0) ->
      deref dl (heap s1) = deref dl (heap (booted (Some (JObj short_doc)) downloads)).
Proof.
  apply (load_categories_keeps_default self0 short_doc); vm_compute; reflexivity.
Defined.

Lemma load_categories_order_witness :
  exists c1 s1,
    load_categories self0 (booted (Some (JObj two_hits_doc)) downloads) = (Ok c1, s1) /\
    map fst c1
      = map fst (Dict.of_pairs two_hits_doc)
        ++ List.filter (fun c => negb (Dict.mem c (Dict.of_pairs two_hits_doc)))
                       (map fst (default_categories self0)).
Proof.
  apply (load_categories_order self0 two_hits_doc); vm_compute; reflexivity.
Defined.

Lemma reset_is_not_saved_witness :
  Dict.get "Disk Image" reset_doc = Some (JObj [("ISO & Disk Images", JStr ".iso")]) /\
  exists c1 s1,
    load_categories self0 (booted (Some (JObj reset_doc)) downloads) = (Ok c1, s1) /\
    store s1 = Some (JObj reset_doc) /\
    forall c dl, In (c, dl) (default_categories self0) -> synced c1 (heap s1) c dl.
Proof.
  split; [reflexivity|].
  apply (reset_is_not_saved self0 reset_doc); vm_compute; reflexivity.
Defined.

Lemma save_then_load_witness :
  let s := organized (Some (JObj two_hits_doc)) downloads in
  let s1 := snd (save_categories (categories s) s) in
  store s1 = Some (JObj (dump_pairs (heap s) (categories s))) /\
  exists cats' s2,
    json_load (dump_pairs (heap s) (categories s)) s1 = (Ok cats', s2) /\
    dump (heap s2) cats' = dump (heap s) (categories s).
Proof.
  intros s. apply (save_then_load (categories s) s). vm_compute. reflexivity.
Defined.

Lemma find_match_sound_witness :
  let s := organized (Some (JObj two_hits_doc)) downloads in
  exists l e, In ("Zebra", VDict l) (categories s) /\ In ("Tables", e) (deref l (heap s))
              /\ py_in ".csv" e = Ok true.
Proof.
  intros s. apply (find_match_sound (heap s) ".csv" (categories s) "Zebra" "Tables").
  vm_compute. reflexivity.
Defined.

Lemma capital_extensions_never_match_witness :
  py_in (file_extension "d/scan.PDF") (exts [".PDF"; ".Jpg"]) = Ok false.
Proof.
  apply (capital_extensions_never_match "d/scan.PDF" [".PDF"; ".Jpg"]). reflexivity.
Defined.

Lemma ill_shaped_category_raises_witness :
  let s := organized (Some (JObj list_category_doc)) downloads in
  organise_downloads self0 "d/b.exe" s =
    (Raise AttributeError,
     set_console (console s ++ [msg_processing "d/b.exe" (file_extension "d/b.exe")]) s).
Proof.
  intros s.
  apply (ill_shaped_category_raises self0 "d/b.exe" s [] "Mine" (NArr [JStr ".foo"])
           (skipn 1 (categories s))); vm_compute; reflexivity.
Defined.

Lemma matched_file_keeps_schema_witness :
  let s := organized None downloads in
  let s1 := snd (organise_downloads self0 "d/b.exe" s) in
  heap s1 = heap s /\ categories s1 = categories s.
Proof.
  intros s.
  apply (matched_file_keeps_schema self0 "d/b.exe" s "Executables" "Installers").
  vm_compute. reflexivity.
Defined.

Lemma unmatched_without_other_folder_witness :
  let s := organized None downloads in
  let other := PyStr.join (folder_to_watch self0) ["Other"] in
  exists e s1,
    organise_downloads self0 "d/a.xyz" s = (Raise e, s1) /\
    (exists l, Dict.get "Other" (categories s1) = Some (VDict l) /\
               Dict.mem (file_extension "d/a.xyz") (deref l (heap s1)) = true /\
               (Dict.mem (file_extension "d/a.xyz") (deref l (heap s)) = false ->
                  Dict.get (file_extension "d/a.xyz") (deref l (heap s1))
                    = Some (JArr []))) /\
    store s1 = Some (dump (heap s1) (categories s1)) /\
    disk s1 = fst (fs_makedirs false other (disk s)) /\
    (snd (fs_makedirs false other (disk s)) = None -> e = UnboundLocalError).
Proof.
  intros s.
  apply (unmatched_without_other_folder self0 "d/a.xyz" s); vm_compute; reflexivity.
Defined.

Lemma learn_twice_witness :
  let s := organized None downloads in
  exists s1, learn ".xyz" s = (Ok tt, s1) /\ learn ".xyz" s1 = (Ok tt, s1).
Proof.
  intros s. apply (learn_twice ".xyz" s). vm_compute. reflexivity.
Defined.

Lemma pass_skips_what_is_no_file_witness :
  let s := organized None only_folders in
  organize_files_in_directory self0 s
    = (Ok tt, set_console (console s ++ [msg_starting self0]) s).
Proof.
  intros s. apply (pass_skips_what_is_no_file self0 ["old"; "Other"] s);
    vm_compute; reflexivity.
Defined.

Lemma find_category_ignores_case_witness :
  Kw.find_category "UOW Notes.TXT" Kw.default_mapping
    = Kw.find_category "uow notes.txt" Kw.default_mapping /\
  Kw.matches "UOW Notes.TXT" (Kw.kws (map PyStr.lower ["UOW"; "Scanned Documents"]))
    = Kw.matches "UOW Notes.TXT" (Kw.kws ["UOW"; "Scanned Documents"]).
Proof.
  apply (find_category_ignores_case "UOW Notes.TXT" "uow notes.txt" Kw.default_mapping
           ["UOW"; "Scanned Documents"]).
  reflexivity.
Defined.

Lemma add_category_teaches_witness :
  let st := Kw.State (JObj Kw.default_mapping) None abs_documents [] in
  exists d',
    Kw.add_category "Lists" "todo.txt" st = (Ok tt, Kw.set_mapping (JObj d') st) /\
    Kw.find_category "todo.txt" d' = Ok (Some "Lists").
Proof.
  intros st. apply (add_category_teaches "Lists" "todo.txt" st Kw.default_mapping);
    vm_compute; reflexivity.
Defined.

Lemma handle_uncategorized_file_witness :
  let st := Kw.State (JObj Kw.default_mapping) None abs_documents_locked [] in
  let item_path := PyStr.join "/docs" ["todo.txt"] in
  let c := chosen_category answer_proj "todo.txt" in
  let target := PyStr.join "/docs" [c] in
  let dst := PyStr.join target [PyStr.basename item_path] in
  let d1 := fst (fs_makedirs true target (Kw.disk st)) in
  let r := Kw.handle_uncategorized_item "/" answer_proj "/docs" item_path "todo.txt" st in
  c = "Proj" /\
  (exists d' xs, Kw.mapping (snd r) = JObj d' /\
                 Dict.get c d' = Some (JArr (xs ++ [JStr "todo.txt"]))) /\
  Kw.disk (snd r) = fst (fs_move item_path dst d1) /\
  match snd (fs_move item_path dst d1) with
  | Some e => fst r = Raise e /\ Kw.store (snd r) = Kw.store st
  | None => fst r = Ok tt /\ Kw.store (snd r) = Some (Kw.mapping (snd r))
  end.
Proof.
  intros st item_path c target dst d1 r. split; [reflexivity|].
  apply (handle_uncategorized_file "/" answer_proj "/docs" "todo.txt" st Kw.default_mapping);
    vm_compute; try reflexivity; discriminate.
Defined.

Lemma blank_answer_is_miscellaneous_witness :
  let st := Kw.State (JObj Kw.default_mapping) None abs_documents [] in
  let item_path := PyStr.join "/docs" ["todo.txt"] in
  let target := PyStr.join "/docs" ["Miscellaneous"] in
  let dst := PyStr.join target [PyStr.basename item_path] in
  let d1 := fst (fs_makedirs true target (Kw.disk st)) in
  let r := Kw.handle_uncategorized_item "/" blanks "/docs" item_path "todo.txt" st in
  (exists d' xs, Kw.mapping (snd r) = JObj d' /\
                 Dict.get "Miscellaneous" d' = Some (JArr (xs ++ [JStr "todo.txt"]))) /\
  Kw.disk (snd r) = fst (fs_move item_path dst d1) /\
  match snd (fs_move item_path dst d1) with
  | Some e => fst r = Raise e /\ Kw.store (snd r) = Kw.store st
  | None => fst r = Ok tt /\ Kw.store (snd r) = Some (Kw.mapping (snd r))
  end.
Proof.
  intros st item_path target dst d1 r.
  apply (blank_answer_is_miscellaneous "/" blanks "/docs" "todo.txt" st Kw.default_mapping);
    vm_compute; try reflexivity; discriminate.
Defined.

Lemma relative_folder_is_not_guarded_witness :
  (let st := Kw.State (JObj Kw.default_mapping) None rel_documents [] in
   let dst := PyStr.join "docs/Proj" [PyStr.basename "docs/Proj"] in
   let d1 := fst (fs_makedirs true "docs/Proj" (Kw.disk st)) in
   fs_isdir "docs/Proj" d1 = true /\
   Kw.move_item "/home/u" "docs/Proj" "docs/Proj" st =
     (match snd (fs_move "docs/Proj" dst d1) with
      | None => Ok tt
      | Some e => Raise e
      end,
      Kw.set_disk (fst (fs_move "docs/Proj" dst d1)) st))
  /\
  (let st := Kw.State (JObj Kw.default_mapping) None rel_documents_srv [] in
   let d1 := fst (fs_makedirs true "/srv" (Kw.disk st)) in
   Kw.move_item "/home/u" "docs/Proj" "/srv" st = (Raise ValueError, Kw.set_disk d1 st)).
Proof.
  split.
  - intros st dst d1. split; [reflexivity|].
    refine (relative_folder_is_not_guarded "/home/u" "docs/Proj" "docs/Proj" st _ _ _ _);
      vm_compute; try reflexivity; discriminate.
  - intros st d1.
    refine (relative_folder_is_not_guarded "/home/u" "docs/Proj" "/srv" st _ _ _ _);
      vm_compute; try reflexivity; discriminate.
Defined.

Lemma folder_into_itself_guard_witness :
  let st := Kw.State (JObj Kw.default_mapping) None abs_documents [] in
  let d1 := fst (fs_makedirs true "/docs/Proj" (Kw.disk st)) in
  Kw.move_item "/" "/docs/Proj" "/docs/Proj" st =
    (Ok tt,
     Kw.set_console (Kw.console st ++ [msg_skip_folder "/docs/Proj"]) (Kw.set_disk d1 st)).
Proof.
  intros st d1.
  apply (folder_into_itself_guard "/" "/docs/Proj" "/docs/Proj" st);
    vm_compute; try reflexivity; discriminate.
Defined.

End MoreRuns.
